(** * openminers: embedding, chat and text-to-video miners

  A shallow embedding of the three miner adapters of the repository
    - openminers/text_to_embedding/bert/miner.py
    - openminers/text_to_text/bloom/miner.py
    - openminers/base/texttovideo_miner.py
  and the properties their specification states about them.

  Conventions.
    - Python exceptions are values of [pyexn]; a call that may raise
      returns a [result].
    - Tensor entries are real numbers: float arithmetic is idealised
      (no rounding, no overflow).  In that idealisation the only way
      to obtain a NaN or an infinity from finite inputs is to divide
      by zero, so the divisors are kept visible.
    - Tensors are nested lists; a tensor of torch is rectangular, which
      is the predicate [wf3] / [wf2].
    - The pretrained model, the tokenizer and the generation pipeline
      are external: they are fields of the miner objects.  So are the
      base classes of the miners: what their initialiser leaves is an
      argument of [__init__]. *)

From Stdlib Require Import Reals Lra Lia ZArith String Ascii List.
From stdpp Require Import base option list strings gmap.

(* ===================================================================== *)
(** ** Python results *)
(* ===================================================================== *)

Module Py.
Local Open Scope R_scope.

Inductive pyexn : Type :=
| AttributeError (attr : string)
| KeyError (key : string)
| IndexError
| TypeError (msg : string)
| ValueError (msg : string)
| RuntimeError (msg : string)
| OSError (msg : string).

Inductive result (A : Type) : Type :=
| Ok (a : A)
| Except (e : pyexn).
Arguments Ok {A} a.
Arguments Except {A} e.

Definition bind {A B} (r : result A) (k : A -> result B) : result B :=
  match r with
  | Ok a => k a
  | Except e => Except e
  end.

Fixpoint mapM {A B} (f : A -> result B) (l : list A) : result (list B) :=
  match l with
  | [] => Ok []
  | x :: l' =>
      bind (f x) (fun y => bind (mapM f l') (fun ys => Ok (y :: ys)))
  end.

(** What [print] writes. *)
Inductive printed : Type :=
| PStr (s : string)
| PFloat (x : R).

(** The part of the process state the miners touch: standard output,
    the clock behind [time.time()], the environment variables, and the
    state of everything external (random generator, devices), which the
    external calls may read and advance. *)
Record world : Type := {
  stdout : list printed;
  clock : nat -> R;
  clock_reads : nat;
  environ : gmap string string;
  external : nat
}.

(** A statement sequence: it runs in a world, and either returns or
    raises; what it did to the world before raising stays done. *)
Definition M (A : Type) : Type := world -> result A * world.

Definition ret {A} (a : A) : M A := fun w => (Ok a, w).
Definition raise {A} (e : pyexn) : M A := fun w => (Except e, w).
Definition lift {A} (r : result A) : M A := fun w => (r, w).
Definition bindM {A B} (c : M A) (k : A -> M B) : M B :=
  fun w =>
    match c w with
    | (Ok a, w') => k a w'
    | (Except e, w') => (Except e, w')
    end.

Definition print (x : printed) : M unit :=
  fun w => (Ok tt, {| stdout := stdout w ++ [x]; clock := clock w;
                      clock_reads := clock_reads w; environ := environ w;
                      external := external w |}).

Definition time_time : M R :=
  fun w => (Ok (clock w (clock_reads w)),
            {| stdout := stdout w; clock := clock w;
               clock_reads := S (clock_reads w); environ := environ w;
               external := external w |}).

(** [os.getenv(name, default)] and [os.environ[name] = value] *)
Definition os_getenv (name default : string) : M string :=
  fun w => (Ok (match environ w !! name with
                | Some v => v
                | None => default
                end), w).
Definition os_environ_set (name value : string) : M unit :=
  fun w => (Ok tt, {| stdout := stdout w; clock := clock w;
                      clock_reads := clock_reads w;
                      environ := <[name := value]> (environ w);
                      external := external w |}).

(** The answer of a [blacklist] hook: [Union[Tuple[bool, str], bool]]. *)
Inductive decision : Type :=
| Reject (b : bool)
| RejectWithReason (b : bool) (reason : string).

End Py.
Import Py.

#[global] Instance result_ret : MRet result := @Ok.
#[global] Instance result_bind : MBind result :=
  fun A B k r => Py.bind r k.
#[global] Instance M_ret : MRet M := @Py.ret.
#[global] Instance M_bind : MBind M := fun A B k c => Py.bindM c k.

(* ===================================================================== *)
(** ** text_to_embedding/bert/miner.py *)
(* ===================================================================== *)

Module Bert.
Local Open Scope R_scope.

(** A float tensor of rank 3 is [batch x tokens x hidden], one of rank 2
    is [batch x hidden]; the attention mask is an integer tensor
    [batch x tokens]. *)
Abbreviation tensor2 A := (list (list A)) (only parsing).
Abbreviation tensor3 A := (list (list (list A))) (only parsing).

Definition size2 {A} (t : tensor2 A) : nat * nat :=
  (length t, length (hd [] t)).
Definition size3 {A} (t : tensor3 A) : nat * nat * nat :=
  (length t, length (hd [] t), length (hd [] (hd [] t))).

(** Rectangularity: every row has the size the first one has. *)
Definition wf2 {A} (t : tensor2 A) : Prop :=
  Forall (fun row => length row = snd (size2 t)) t.
Definition wf3 {A} (t : tensor3 A) : Prop :=
  Forall (fun row => length row = snd (fst (size3 t)) /\
                     Forall (fun v => length v = snd (size3 t)) row) t.

(** What the tokenizer returns ([return_tensors="pt"]) and what the
    model returns; [model_output[0]] is the first field. *)
Record BatchEncoding : Type := {
  input_ids : tensor2 Z;
  token_type_ids : tensor2 Z;
  attention_mask : tensor2 Z
}.

Record ModelOutput : Type := {
  last_hidden_state : tensor3 R;
  pooler_output : tensor2 R
}.

Definition getitem0 (model_output : ModelOutput) : tensor3 R :=
  last_hidden_state model_output.

(** [t.unsqueeze(-1)] *)
Definition unsqueeze_last {A} (t : tensor2 A) : tensor3 A :=
  map (map (fun x => [x])) t.

(** One axis of [Tensor.expand]: the axis keeps its size when it has the
    requested one, an axis of size 1 is repeated, anything else raises. *)
Definition expand_axis {A B} (n : nat) (f : A -> result B) (l : list A)
  : result (list B) :=
  if Nat.eqb (length l) n then mapM f l
  else match l with
       | [x] => y ← f x; Ok (replicate n y)
       | _ => Except (RuntimeError "expand: sizes do not match")
       end.

Definition expand {A} (size : nat * nat * nat) (t : tensor3 A)
  : result (tensor3 A) :=
  let '(b, s, h) := size in
  expand_axis b (expand_axis s (expand_axis h Ok)) t.

(** [t.float()] *)
Definition float (t : tensor3 Z) : tensor3 R := map (map (map IZR)) t.

(** Elementwise product and quotient of tensors of one size. *)
Definition mul3 (a b : tensor3 R) : tensor3 R :=
  zip_with (zip_with (zip_with Rmult)) a b.
Definition div2 (a b : tensor2 R) : tensor2 R :=
  zip_with (zip_with Rdiv) a b.

(** [torch.sum(t, 1)] and [t.sum(1)]: the token axis is summed away. *)
Definition vadd (u v : list R) : list R := zip_with Rplus u v.
Definition sum1 (t : tensor3 R) : tensor2 R :=
  let h := snd (size3 t) in
  map (fun row => foldr vadd (replicate h 0) row) t.

(** [torch.clamp(t, min=m)] *)
Definition clamp_min (t : tensor2 R) (m : R) : tensor2 R :=
  map (map (fun x => Rmax x m)) t.

Definition pool_floor : R := 1e-9.

(** The two operands of the division of [mean_pooling]. *)
Definition pool_numerator (token_embeddings input_mask_expanded : tensor3 R)
  : tensor2 R :=
  sum1 (mul3 token_embeddings input_mask_expanded).
Definition pool_denominator (input_mask_expanded : tensor3 R) : tensor2 R :=
  clamp_min (sum1 input_mask_expanded) pool_floor.

Definition mean_pooling (model_output : ModelOutput)
                        (attention_mask : tensor2 Z) : result (tensor2 R) :=
  let token_embeddings := getitem0 model_output in
  input_mask_expanded ←
    (e ← expand (size3 token_embeddings) (unsqueeze_last attention_mask);
     Ok (float e));
  Ok (div2 (pool_numerator token_embeddings input_mask_expanded)
           (pool_denominator input_mask_expanded)).

(** The reduction as the specification words it: per input row, the sum
    of the token vectors weighted by the attention mask, divided by the
    mask count of the row floored at [pool_floor]. *)
Definition sum_list (v : list R) : R := foldr Rplus 0 v.
Definition scale (c : R) (v : list R) : list R := map (Rmult c) v.
Definition masked_sum (h : nat) (tokens : list (list R)) (mask : list Z)
  : list R :=
  foldr vadd (replicate h 0)
        (zip_with (fun m v => scale (IZR m) v) mask tokens).
Definition mask_count (mask : list Z) : R := sum_list (map IZR mask).
Definition masked_mean (h : nat) (tokens : list (list R)) (mask : list Z)
  : list R :=
  map (fun x => x / Rmax (mask_count mask) pool_floor)
      (masked_sum h tokens mask).
Definition spec_mean_pooling (token_embeddings : tensor3 R)
                             (attention_mask : tensor2 Z) : tensor2 R :=
  zip_with (masked_mean (snd (size3 token_embeddings)))
           token_embeddings attention_mask.

(** [F.normalize(x, p=2, dim=1)] of torch, with its default [eps]:
    every row is divided by [max(norm, eps)]. *)
Definition normalize_eps : R := 1e-12.
Definition norm2 (v : list R) : R := sqrt (sum_list (map (fun x => x * x) v)).
Definition normalize_denominator (v : list R) : R :=
  Rmax (norm2 v) normalize_eps.
Definition normalize (x : tensor2 R) : tensor2 R :=
  map (fun row => map (fun v => v / normalize_denominator row) row) x.

(** The miner object after [__init__]: its configuration, the tokenizer
    and the model it loaded.  [to_device d] is [None] when a tensor can
    be moved to device [d] and the exception torch raises otherwise. *)
Record Config : Type := {
  bert_model_name : string;
  bert_device : string
}.

Record BertEmbeddingMiner : Type := {
  config : Config;
  tokenizer : list string -> result BatchEncoding;
  model : BatchEncoding -> result ModelOutput;
  to_device : string -> option pyexn
}.

Definition to (self : BertEmbeddingMiner) (x : BatchEncoding) (device : string)
  : result BatchEncoding :=
  match to_device self device with
  | None => Ok x
  | Some e => Except e
  end.

(** The forward call the axon hands to the admission hooks is opaque. *)
Definition blacklist {ForwardCall : Type}
  (self : BertEmbeddingMiner) (forward_call : ForwardCall) : decision :=
  Reject false.

Definition priority {ForwardCall : Type}
  (self : BertEmbeddingMiner) (forward_call : ForwardCall) : R :=
  0.0.

Definition forward (self : BertEmbeddingMiner) (text : list string)
  : result (tensor2 R) :=
  encoded_input ←
    (e ← tokenizer self text; to self e (bert_device (config self)));
  model_output ← model self encoded_input;
  sentence_embeddings ←
    mean_pooling model_output (attention_mask encoded_input);
  let sentence_embeddings := normalize sentence_embeddings in
  Ok sentence_embeddings.

(** Shapes, stated with the sizes as parameters. *)
Definition shape2 {A} (b s : nat) (t : tensor2 A) : Prop :=
  length t = b /\ Forall (fun row => length row = s) t.
Definition shape3 {A} (b s h : nat) (t : tensor3 A) : Prop :=
  length t = b /\
  Forall (fun row => length row = s /\ Forall (fun v => length v = h) row) t.

(** *** Concrete miners

    [demo_miner] answers a batch of two strings, the second of which is
    all padding; [tiny_miner] has a model whose only token embedding is
    far below the [eps] of [normalize]. *)
Definition demo_encoding : BatchEncoding :=
  {| input_ids := [[101; 7592; 0]; [0; 0; 0]]%Z;
     token_type_ids := [[0; 0; 0]; [0; 0; 0]]%Z;
     attention_mask := [[1; 1; 0]; [0; 0; 0]]%Z |}.

Definition demo_output : ModelOutput :=
  {| last_hidden_state :=
       [ [[3; 0]; [3; 8]; [9; 9]];
         [[1; 2]; [3; 4]; [5; 6]] ];
     pooler_output := [[0; 0]; [0; 0]] |}.

Definition demo_miner : BertEmbeddingMiner :=
  {| config := {| bert_model_name := "bert-base-cased";
                  bert_device := "cuda:0" |};
     tokenizer := fun _ => Ok demo_encoding;
     model := fun _ => Ok demo_output;
     to_device := fun _ => None |}.




(** A miner whose model call raises. *)
Definition failing_miner : BertEmbeddingMiner :=
  {| config := {| bert_model_name := "bert-base-cased";
                  bert_device := "cuda:0" |};
     tokenizer := fun _ => Ok demo_encoding;
     model := fun _ => Except (RuntimeError "CUDA out of memory");
     to_device := fun _ => None |}.

(** *** Words for further statements *)

(** Two token tensors agree wherever the mask is not zero. *)
Definition agree_row (mrow : list Z) (row row' : list (list R)) : Prop :=
  Forall3 (fun m v v' => m <> 0%Z -> v = v') mrow row row'.
Definition agree_on (mask : tensor2 Z) (t t' : tensor3 R) : Prop :=
  Forall3 agree_row mask t t'.

(** The token vectors a mask of zeros and ones attends to, and the sum of
    a list of vectors of size [h]. *)
Fixpoint attended (tokens : list (list R)) (mrow : list Z) : list (list R) :=
  match tokens, mrow with
  | v :: tokens', m :: mrow' =>
      if Z.eqb m 1 then v :: attended tokens' mrow' else attended tokens' mrow'
  | _, _ => []
  end.
Definition vsum (h : nat) (vs : list (list R)) : list R :=
  foldr vadd (replicate h 0) vs.

(** Padding: [p] more tokens behind every row, masked out. *)
Definition pad_tokens (t pads : tensor3 R) : tensor3 R := zip_with app t pads.
Definition pad_mask (p : nat) (mask : tensor2 Z) : tensor2 Z :=
  map (fun mrow => mrow ++ replicate p 0%Z) mask.

(** *** [BertEmbeddingMiner.__init__]

    [super_init] is the initialiser of the base class, which leaves the
    parsed configuration; the loaders are those of [transformers].
    [device d] is the outcome of [Module.to(d)] on the loaded model, at
    construction; [encoding_to d] that of [BatchEncoding.to(d)] on what
    the tokenizer returns, at every later [forward].  They are separate
    calls: the second can raise where the first did not. *)
Record Lib : Type := {
  AutoTokenizer_from_pretrained :
    string -> M (list string -> result BatchEncoding);
  AutoModel_from_pretrained :
    string -> M (BatchEncoding -> result ModelOutput);
  device : string -> option pyexn;
  encoding_to : string -> option pyexn
}.

Definition __init__ (lib : Lib) (super_init : M Config) : M BertEmbeddingMiner :=
  config ← super_init;
  tokenizer ← AutoTokenizer_from_pretrained lib (bert_model_name config);
  model ← AutoModel_from_pretrained lib (bert_model_name config);
  model ← match device lib (bert_device config) with
          | None => mret model
          | Some e => raise e
          end;
  mret {| config := config; tokenizer := tokenizer; model := model;
          to_device := encoding_to lib |}.

(** Model outputs that differ from [demo_output] at masked positions
    only, or carry one more masked token per row. *)
Definition demo_output_masked : ModelOutput :=
  {| last_hidden_state :=
       [ [[3; 0]; [3; 8]; [7; 7]];
         [[0; 1]; [1; 0]; [2; 2]] ];
     pooler_output := [[0; 0]; [0; 0]] |}.

Definition demo_pads : tensor3 R := [ [[7; 7]]; [[8; 8]] ].

Definition demo_output_padded : ModelOutput :=
  {| last_hidden_state := pad_tokens (last_hidden_state demo_output) demo_pads;
     pooler_output := [[0; 0]; [0; 0]] |}.

(** A library whose loaders return the tokenizer and the model of
    [demo_miner], and one whose model loader raises. *)
Definition demo_lib : Lib :=
  {| AutoTokenizer_from_pretrained := fun _ => mret (tokenizer demo_miner);
     AutoModel_from_pretrained := fun _ => mret (model demo_miner);
     device := fun _ => None;
     encoding_to := fun _ => None |}.

Definition offline_lib : Lib :=
  {| AutoTokenizer_from_pretrained := fun _ => mret (tokenizer demo_miner);
     AutoModel_from_pretrained := fun _ =>
       raise (OSError "Can't load the model");
     device := fun _ => None;
     encoding_to := fun _ => None |}.

End Bert.

(* ===================================================================== *)
(** ** text_to_text/bloom/miner.py *)
(* ===================================================================== *)

Module Bloom.
Local Open Scope string_scope.

(** *** The [str] methods the miner uses *)

Definition nl : string := String (ascii_of_nat 10) "".
Definition colon : ascii := ascii_of_nat 58.

(** [s.startswith(p)] *)
Fixpoint startswith (p s : string) : bool :=
  match p, s with
  | EmptyString, _ => true
  | String a p', String b s' => if Ascii.eqb a b then startswith p' s' else false
  | String _ _, EmptyString => false
  end.

(** [s.replace(old, new)] for a non-empty [old]: the occurrences of [old]
    are found from the left and do not overlap; [skip] counts the
    characters of a found occurrence still to be passed over. *)
Fixpoint replace_from (old new : string) (skip : nat) (s : string) : string :=
  match s with
  | EmptyString => EmptyString
  | String c s' =>
      match skip with
      | S k => replace_from old new k s'
      | O => if startswith old s
             then new +:+ replace_from old new (String.length old - 1) s'
             else String c (replace_from old new 0 s')
      end
  end.

(** With an empty [old], [new] is put before every character and at the
    end. *)
Fixpoint interleave (new s : string) : string :=
  match s with
  | EmptyString => new
  | String c s' => new +:+ String c (interleave new s')
  end.

Definition replace (s old new : string) : string :=
  match old with
  | EmptyString => interleave new s
  | String _ _ => replace_from old new 0 s
  end.

(** [s.split(sep)] for a separator of one character; the list it
    returns is never empty. *)
Fixpoint split (sep : ascii) (s : string) : list string :=
  match s with
  | EmptyString => [EmptyString]
  | String c s' =>
      if Ascii.eqb c sep then EmptyString :: split sep s'
      else match split sep s' with
           | seg :: segs => String c seg :: segs
           | [] => [String c EmptyString]
           end
  end.

(** [l[-1]] and [l[0]] *)
Definition getitem_last {A} (l : list A) : result A :=
  match last l with
  | Some x => Ok x
  | None => Except IndexError
  end.
Definition getitem_first {A} (l : list A) : result A :=
  match l with
  | x :: _ => Ok x
  | [] => Except IndexError
  end.

(** [d[key]] on a dict with string keys *)
Definition getitem (d : gmap string string) (key : string) : result string :=
  match d !! key with
  | Some v => Ok v
  | None => Except (KeyError key)
  end.

(** *** Configuration *)




Record Config : Type := {
  deployment_framework : string;
  bloom_model_name : string;
  bloom_max_new_tokens : Z
}.


(** *** The external objects: tokenizer, model, engine, pipeline *)

Record Tokenizer : Type := {
  encode : string -> M (list (list Z));
  decode : list Z -> M string;
  eos_token_id : option Z
}.

Record CausalLM : Type := {
  hidden_size : Z;
  generate : list (list Z) -> Z -> M (list (list Z));
  eval : M unit
}.

Record DeepSpeedEngine : Type := { module : CausalLM }.

Record pipe_kwargs : Type := {
  max_length : Z;
  do_sample : bool;
  top_k : Z;
  num_return_sequences : Z;
  kw_eos_token_id : option Z
}.

Record Pipeline : Type := {
  call : string -> pipe_kwargs -> M (list (gmap string string))
}.

(** The values an attribute of the miner may hold. *)
Inductive pyval : Type :=
| VInt (n : Z)
| VStr (s : string)
| VTokenizer (t : Tokenizer)
| VCausalLM (m : CausalLM)
| VEngine (e : DeepSpeedEngine)
| VPipeline (p : Pipeline).

(** The miner object: the configuration its base class parsed, and the
    attributes assigned through [self.<name> = ...]. *)
Record BloomChatMiner : Type := {
  config : Config;
  attrs : gmap string pyval
}.

Definition setattr (self : BloomChatMiner) (name : string) (v : pyval)
  : BloomChatMiner :=
  {| config := config self; attrs := <[name := v]> (attrs self) |}.

Definition getattr (self : BloomChatMiner) (name : string) : M pyval :=
  match attrs self !! name with
  | Some v => mret v
  | None => raise (AttributeError name)
  end.

(** Reading [self.<name>] and then using it as an object of a class;
    [member] is the member looked up on it. *)
Definition as_tokenizer (v : pyval) (member : string) : M Tokenizer :=
  match v with VTokenizer t => mret t | _ => raise (AttributeError member) end.
Definition as_model (v : pyval) (member : string) : M CausalLM :=
  match v with VCausalLM m => mret m | _ => raise (AttributeError member) end.
Definition as_engine (v : pyval) (member : string) : M DeepSpeedEngine :=
  match v with VEngine e => mret e | _ => raise (AttributeError member) end.
Definition as_int (v : pyval) : M Z :=
  match v with VInt n => mret n | _ => raise (TypeError "device") end.
Definition as_str (v : pyval) : M string :=
  match v with VStr s => mret s | _ => raise (TypeError "model name") end.

(** *** The libraries *)

Record ds_config : Type := {
  fp16_enabled : bool;
  bf16_enabled : bool;
  zero_stage : Z;
  overlap_comm : bool;
  contiguous_gradients : bool;
  reduce_bucket_size : Z;
  stage3_prefetch_bucket_size : R;
  stage3_param_persistence_threshold : Z;
  steps_per_print : Z;
  train_batch_size : Z;
  train_micro_batch_size_per_gpu : Z;
  wall_clock_breakdown : bool
}.

Record from_pretrained_kwargs : Type := {
  device_map : option string;
  load_in_8bit : bool
}.

Record Lib : Type := {
  (** [int(s)] on a string *)
  int : string -> result Z;
  AutoTokenizer_from_pretrained : string -> M Tokenizer;
  AutoModelForCausalLM_from_pretrained :
    string -> from_pretrained_kwargs -> M CausalLM;
  (** [pipeline(task, model=, tokenizer=, load_in_8bit=, device_map=)];
      the tokenizer is whatever value [self.tokenizer] holds *)
  pipeline : string -> CausalLM -> pyval -> from_pretrained_kwargs -> M Pipeline;
  torch_cuda_set_device : Z -> M unit;
  tensor_to : list (list Z) -> Z -> M (list (list Z));
  deepspeed_init_distributed : M unit;
  HfDeepSpeedConfig : ds_config -> M unit;
  (** [deepspeed.initialize(...)[0]] *)
  deepspeed_initialize : CausalLM -> ds_config -> M DeepSpeedEngine
}.

(** *** [BloomChatMiner.__init__]

    [super_init] is the call of the base class initialiser, with the
    arguments passed on: the object as the base class leaves it. *)
Definition __init__ (lib : Lib) (super_init : M BloomChatMiner)
  : M BloomChatMiner :=
  self ← super_init;
  let model_name := "sambanovasystems/BLOOMChat-176B-v1" in
  tokenizer ← AutoTokenizer_from_pretrained lib (bloom_model_name (config self));
  if String.eqb (deployment_framework (config self)) "deepspeed" then
    _ ← os_environ_set "TOKENIZERS_PARALLELISM" "false";
    rank ← os_getenv "LOCAL_RANK" "0";
    rank ← lift (int lib rank);
    let self := setattr self "local_rank" (VInt rank) in
    size ← os_getenv "WORLD_SIZE" "1";
    world_size ← lift (int lib size);
    local_rank ← (v ← getattr self "local_rank"; as_int v);
    _ ← torch_cuda_set_device lib local_rank;
    _ ← deepspeed_init_distributed lib;
    model ← AutoModelForCausalLM_from_pretrained lib
              (bloom_model_name (config self))
              {| device_map := None; load_in_8bit := false |};
    let self := setattr self "model" (VCausalLM model) in
    model ← (v ← getattr self "model"; as_model v "config");
    let model_hidden_size := hidden_size model in
    let train_batch_size := (1 * world_size)%Z in
    let ds_config :=
      {| fp16_enabled := false;
         bf16_enabled := false;
         zero_stage := 3;
         overlap_comm := true;
         contiguous_gradients := true;
         reduce_bucket_size := (model_hidden_size * model_hidden_size)%Z;
         stage3_prefetch_bucket_size :=
           (0.9 * IZR model_hidden_size * IZR model_hidden_size)%R;
         stage3_param_persistence_threshold := (10 * model_hidden_size)%Z;
         steps_per_print := 2000;
         train_batch_size := train_batch_size;
         train_micro_batch_size_per_gpu := 1;
         wall_clock_breakdown := false |} in
    dschf ← HfDeepSpeedConfig lib ds_config;
    model ← (v ← getattr self "model"; as_model v "model");
    engine ← deepspeed_initialize lib model ds_config;
    let self := setattr self "ds_engine" (VEngine engine) in
    engine ← (v ← getattr self "ds_engine"; as_engine v "module");
    _ ← eval (module engine);
    mret self
  else
    name ← (v ← getattr self "model_name"; as_str v);
    model ← AutoModelForCausalLM_from_pretrained lib name
              {| device_map := Some "auto"; load_in_8bit := true |};
    let self := setattr self "model" (VCausalLM model) in
    model ← (v ← getattr self "model"; as_model v "model");
    tok ← getattr self "tokenizer";
    pipe ← pipeline lib "text-generation" model tok
              {| device_map := Some "auto"; load_in_8bit := true |};
    let self := setattr self "pipe" (VPipeline pipe) in
    mret self.

(** *** [BloomChatMiner._process_history] *)

Definition process_message (processed_history : string)
                           (message : gmap string string) : result string :=
  role ← getitem message "role";
  processed_history ←
    (if String.eqb role "system"
     then content ← getitem message "content";
          Ok (processed_history +:+ ("<human>: " +:+ content +:+ nl))
     else Ok processed_history);
  role ← getitem message "role";
  processed_history ←
    (if String.eqb role "assistant"
     then content ← getitem message "content";
          Ok (processed_history +:+ ("<bot>: " +:+ content +:+ nl))
     else Ok processed_history);
  role ← getitem message "role";
  processed_history ←
    (if String.eqb role "user"
     then content ← getitem message "content";
          Ok (processed_history +:+ ("<human>: " +:+ content +:+ nl))
     else Ok processed_history);
  Ok processed_history.

Fixpoint process_loop (processed_history : string)
                      (history : list (gmap string string)) : result string :=
  match history with
  | [] => Ok processed_history
  | message :: rest =>
      processed_history ← process_message processed_history message;
      process_loop processed_history rest
  end.

Definition _process_history (history : list (gmap string string))
  : result string :=
  process_loop "" history.

(** *** [BloomChatMiner.forward]

    In the accelerate branch Python reads [self.pipe], then evaluates the
    arguments, the last of which reads [self.tokenizer.eos_token_id], and
    only then calls the object [self.pipe] holds. *)

Definition forward (lib : Lib) (self : BloomChatMiner)
                   (messages : list (gmap string string)) : M string :=
  history ← lift (_process_history messages);
  if String.eqb (deployment_framework (config self)) "deepspeed" then
    t_generate_start ← time_time;
    tokenizer ← (v ← getattr self "tokenizer"; as_tokenizer v "encode");
    encoded ← encode tokenizer history;
    local_rank ← (v ← getattr self "local_rank"; as_int v);
    inputs ← tensor_to lib encoded local_rank;
    engine ← (v ← getattr self "ds_engine"; as_engine v "module");
    outputs ← generate (module engine) inputs 60;
    tokenizer ← (v ← getattr self "tokenizer"; as_tokenizer v "decode");
    output ← lift (getitem_first outputs);
    decoded ← decode tokenizer output;
    let resp := replace decoded history "" in
    _ ← print (PStr resp);
    now ← time_time;
    let t_generate_span := (now - t_generate_start)%R in
    _ ← print (PFloat t_generate_span);
    mret resp
  else
    t_generate_start ← time_time;
    pipe ← getattr self "pipe";
    tokenizer ← (v ← getattr self "tokenizer";
                 as_tokenizer v "eos_token_id");
    pipe ← match pipe with
           | VPipeline p => mret p
           | _ => raise (TypeError "object is not callable")
           end;
    sequences ← call pipe history
                  {| max_length := 200;
                     do_sample := true;
                     top_k := 10;
                     num_return_sequences := 1;
                     kw_eos_token_id := eos_token_id tokenizer |};
    sequence ← lift (getitem_first sequences);
    generated_text ← lift (getitem sequence "generated_text");
    segment ← lift (getitem_last (split colon generated_text));
    let resp := replace segment history "" in
    now ← time_time;
    let t_generate_span := (now - t_generate_start)%R in
    _ ← print (PStr resp);
    _ ← print (PFloat t_generate_span);
    mret resp.

(** *** Words of the specification *)

(** [old] occurs in [s]; [c] is a character of [s]. *)
Definition occurs (old s : string) : Prop :=
  exists a b : string, s = a +:+ old +:+ b.
Definition has_char (c : ascii) (s : string) : Prop :=
  In c (list_ascii_of_string s).

(** The transcript as the specification words it: one line per
    recognized message, in order; [system] and [user] messages are
    marked [<human>: ], [assistant] messages [<bot>: ]. *)
Definition transcript_line (role content : string) : string :=
  if String.eqb role "system" || String.eqb role "user"
  then "<human>: " +:+ content +:+ nl
  else if String.eqb role "assistant"
       then "<bot>: " +:+ content +:+ nl
       else "".
Definition spec_transcript (messages : list (string * string)) : string :=
  foldr (fun m rest => transcript_line m.1 m.2 +:+ rest) "" messages.

(** A dict is a message of role [m.1] and content [m.2]. *)
Definition is_message (d : gmap string string) (m : string * string) : Prop :=
  d !! "role" = Some m.1 /\ d !! "content" = Some m.2.

(** The world after one reading of the clock. *)
Definition tick (w : world) : world := (time_time w).2.

(** The keyword arguments [forward] calls the pipeline with. *)
Definition forward_pipe_kwargs (tokenizer : Tokenizer) : pipe_kwargs :=
  {| max_length := 200;
     do_sample := true;
     top_k := 10;
     num_return_sequences := 1;
     kw_eos_token_id := eos_token_id tokenizer |}.

(** *** Concrete miners *)

Definition w0 : world :=
  {| stdout := []; clock := fun _ => 0%R; clock_reads := 0;
     environ := ∅; external := 0 |}.

Definition demo_lib : Lib :=
  {| int := fun _ => Ok 0%Z;
     AutoTokenizer_from_pretrained := fun _ =>
       mret {| encode := fun _ => mret [[1%Z]];
               decode := fun _ => mret "";
               eos_token_id := Some 2%Z |};
     AutoModelForCausalLM_from_pretrained := fun _ _ =>
       mret {| hidden_size := 4; generate := fun x _ => mret x;
               eval := mret tt |};
     pipeline := fun _ _ _ _ => mret {| call := fun _ _ => mret [] |};
     torch_cuda_set_device := fun _ => mret tt;
     tensor_to := fun x _ => mret x;
     deepspeed_init_distributed := mret tt;
     HfDeepSpeedConfig := fun _ => mret tt;
     deepspeed_initialize := fun m _ => mret {| module := m |} |}.

(** The example transcript of the specification. *)
Definition hello : gmap string string :=
  <["role" := "user"]> (<["content" := "hello"]> ∅).

(** A deepspeed miner whose model repeats the prompt inside itself. *)
Definition echo_tokenizer : Tokenizer :=
  {| encode := fun _ => mret [[1%Z]];
     decode := fun _ =>
       mret ("<human>: <human>: hello" +:+ nl +:+ "hello" +:+ nl);
     eos_token_id := Some 2%Z |}.

Definition echo_model : CausalLM :=
  {| hidden_size := 4; generate := fun x _ => mret x; eval := mret tt |}.

Definition deepspeed_config : Config :=
  {| deployment_framework := "deepspeed";
     bloom_model_name := "sambanovasystems/BLOOMChat-176B-v1";
     bloom_max_new_tokens := 100 |}.

Definition accelerate_config : Config :=
  {| deployment_framework := "accelerate";
     bloom_model_name := "sambanovasystems/BLOOMChat-176B-v1";
     bloom_max_new_tokens := 100 |}.

Definition echo_miner : BloomChatMiner :=
  {| config := deepspeed_config;
     attrs := <["tokenizer" := VTokenizer echo_tokenizer]>
              (<["local_rank" := VInt 0]>
               (<["ds_engine" := VEngine {| module := echo_model |}]> ∅)) |}.

(** A deepspeed miner whose model echoes the prompt once and goes on. *)
Definition polite_tokenizer : Tokenizer :=
  {| encode := fun _ => mret [[1%Z]];
     decode := fun _ => mret ("<human>: hello" +:+ nl +:+ "<bot>: hi");
     eos_token_id := Some 2%Z |}.

Definition polite_miner : BloomChatMiner :=
  {| config := deepspeed_config;
     attrs := <["tokenizer" := VTokenizer polite_tokenizer]>
              (<["local_rank" := VInt 0]>
               (<["ds_engine" := VEngine {| module := echo_model |}]> ∅)) |}.

(** An accelerate miner, with the attributes [forward] reads. *)
Definition chat_pipeline : Pipeline :=
  {| call := fun history _ =>
       mret [ <["generated_text" := history +:+ "<bot>: hi"]> ∅ ] |}.

Definition chat_miner : BloomChatMiner :=
  {| config := accelerate_config;
     attrs := <["tokenizer" := VTokenizer polite_tokenizer]>
              (<["pipe" := VPipeline chat_pipeline]> ∅) |}.

(** Miners whose model call raises. *)
Definition oom : pyexn := RuntimeError "CUDA out of memory".

Definition failing_model : CausalLM :=
  {| hidden_size := 4; generate := fun _ _ => raise oom; eval := mret tt |}.

Definition failing_deepspeed_miner : BloomChatMiner :=
  {| config := deepspeed_config;
     attrs := <["tokenizer" := VTokenizer polite_tokenizer]>
              (<["local_rank" := VInt 0]>
               (<["ds_engine" := VEngine {| module := failing_model |}]> ∅)) |}.

Definition failing_accelerate_miner : BloomChatMiner :=
  {| config := accelerate_config;
     attrs := <["tokenizer" := VTokenizer polite_tokenizer]>
              (<["pipe" := VPipeline {| call := fun _ _ => raise oom |}]> ∅) |}.

(** The object a base class leaves that assigns no attribute. *)
Definition bare_miner (c : Config) : BloomChatMiner :=
  {| config := c; attrs := ∅ |}.



(** Whatever the dicts are, a transcript is empty or holds a colon. *)
Definition empty_or_colon (s : string) : Prop := s = "" \/ has_char colon s.

(** *** Words for further statements *)

(** The roles [_process_history] has a line for. *)
Definition recognized (role : string) : bool :=
  String.eqb role "system" || String.eqb role "assistant"
  || String.eqb role "user".

(** [a] is [b] with some characters left out. *)
Definition subseq (a b : string) : Prop :=
  sublist (list_ascii_of_string a) (list_ascii_of_string b).

(** [n] copies of [s]. *)
Fixpoint copies (n : nat) (s : string) : string :=
  match n with
  | O => ""
  | S n' => s +:+ copies n' s
  end.

(** The world after [forward] has printed the reply and the elapsed time:
    [w] is the world at the call, [w'] the one the last external call
    left. *)
Definition after_prints (w w' : world) (resp : string) : world :=
  {| stdout := stdout w' ++ [PStr resp;
                             PFloat (clock w' (clock_reads w')
                                     - clock w (clock_reads w))%R];
     clock := clock w';
     clock_reads := S (clock_reads w');
     environ := environ w';
     external := external w' |}.

(** Dicts that are not messages: one without a role, one with a role but
    no content, one of a role that has no line. *)
Definition no_role : gmap string string := <["content" := "hello"]> ∅.
Definition no_content : gmap string string := <["role" := "user"]> ∅.
Definition tool_call : gmap string string := <["role" := "tool"]> ∅.

(** Miners whose model returns no sequence. *)
Definition silent_model : CausalLM :=
  {| hidden_size := 4; generate := fun _ _ => mret []; eval := mret tt |}.

Definition silent_deepspeed_miner : BloomChatMiner :=
  {| config := deepspeed_config;
     attrs := <["tokenizer" := VTokenizer polite_tokenizer]>
              (<["local_rank" := VInt 0]>
               (<["ds_engine" := VEngine {| module := silent_model |}]> ∅)) |}.

Definition silent_accelerate_miner : BloomChatMiner :=
  {| config := accelerate_config;
     attrs := <["tokenizer" := VTokenizer polite_tokenizer]>
              (<["pipe" := VPipeline {| call := fun _ _ => mret [] |}]> ∅) |}.

(** The local rank as the environment holds it: [os.getenv] with the
    default ["0"]. *)
Definition rank_string (w : world) : string :=
  match environ w !! "LOCAL_RANK" with
  | Some v => v
  | None => "0"
  end.

(** A library whose model loader raises. *)
Definition offline_lib : Lib :=
  {| int := int demo_lib;
     AutoTokenizer_from_pretrained := AutoTokenizer_from_pretrained demo_lib;
     AutoModelForCausalLM_from_pretrained := fun _ _ =>
       raise (OSError "Can't load the model");
     pipeline := pipeline demo_lib;
     torch_cuda_set_device := torch_cuda_set_device demo_lib;
     tensor_to := tensor_to demo_lib;
     deepspeed_init_distributed := deepspeed_init_distributed demo_lib;
     HfDeepSpeedConfig := HfDeepSpeedConfig demo_lib;
     deepspeed_initialize := deepspeed_initialize demo_lib |}.

End Bloom.

(* ===================================================================== *)
(** ** base/texttovideo_miner.py *)
(* ===================================================================== *)

Module TextToVideo.

Section Miner.
(** The forward call, the axon and the tensors of rewards belong to the
    serving framework. *)
Context {ForwardCall Axon Rewards : Type}.

(** The methods a concrete miner provides: [forward] is abstract in
    [BaseTextToVideoMiner], [blacklist] and [priority] are required by
    its base class. *)
Record methods : Type := {
  forward : string -> Z -> Z -> Z -> M string;
  blacklist : ForwardCall -> M decision;
  priority : ForwardCall -> M R
}.

(** The class [Synapse] that [__init__] defines. *)
Record Synapse : Type := {
  synapse_priority : ForwardCall -> M R;
  synapse_blacklist : ForwardCall -> M decision;
  synapse_backward : string -> string -> Rewards -> M (option string);
  synapse_forward : string -> Z -> Z -> Z -> M string
}.

Record BaseTextToVideoMiner : Type := {
  impl : methods;
  axon : Axon;
  synapse : option (Synapse * Axon)
}.

Definition make_Synapse (self : BaseTextToVideoMiner) : Synapse :=
  {| synapse_priority := fun forward_call =>
       priority (impl self) forward_call;
     synapse_blacklist := fun forward_call =>
       blacklist (impl self) forward_call;
     synapse_backward := fun video text rewards => mret None;
     synapse_forward := fun text num_inference_steps num_frames fps =>
       forward (impl self) text num_inference_steps num_frames fps |}.

(** [super_init] is the initialiser of [bittensor.BaseMinerNeuron];
    [new_synapse] is the constructor [Synapse] inherits from
    [bittensor.TextToVideoSynapse], called with [axon = self.axon]. *)
Definition __init__ (super_init : M BaseTextToVideoMiner)
                    (new_synapse : Synapse -> Axon -> M unit)
  : M BaseTextToVideoMiner :=
  self ← super_init;
  let Synapse := make_Synapse self in
  _ ← new_synapse Synapse (axon self);
  mret {| impl := impl self; axon := axon self;
          synapse := Some (Synapse, axon self) |}.

End Miner.

Arguments methods : clear implicits.
Arguments Synapse : clear implicits.
Arguments BaseTextToVideoMiner : clear implicits.

(** A concrete miner: the forward call is opaque, the axon is named. *)
Definition demo_methods : methods unit :=
  {| forward := fun text _ _ _ => mret text;
     blacklist := fun _ => mret (Reject false);
     priority := fun _ => mret 0%R |}.

Definition video_miner : BaseTextToVideoMiner unit string unit :=
  {| impl := demo_methods; axon := "axon"; synapse := None |}.

End TextToVideo.

(* ===================================================================== *)
(** ** Results: lists *)
(* ===================================================================== *)


(* ===================================================================== *)
(** ** Results: the embedding miner *)
(* ===================================================================== *)

Section BertFacts.
Import Bert.
Local Open Scope R_scope.



(** *** Shapes *)

Lemma wf2_shape {A} (t : tensor2 A) :
  wf2 t -> shape2 (fst (size2 t)) (snd (size2 t)) t.
Proof. intros H. split; [reflexivity | exact H]. Qed.

Lemma wf3_shape {A} (t : tensor3 A) :
  wf3 t ->
  shape3 (fst (fst (size3 t))) (snd (fst (size3 t))) (snd (size3 t)) t.
Proof. intros H. split; [reflexivity | exact H]. Qed.

(** *** [expand] on an unsqueezed mask *)

Lemma expand_axis_same {A B} (f : A -> result B) (l : list A) :
  expand_axis (length l) f l = mapM f l.
Proof. unfold expand_axis. rewrite Nat.eqb_refl. reflexivity. Qed.

Lemma expand_axis_singleton {A} (h : nat) (x : A) :
  expand_axis h Ok [x] = Ok (replicate h x).
Proof.
  destruct h as [|[|h]]; reflexivity.
Qed.

Lemma expand_unsqueeze_row {A} (h : nat) (row : list A) :
  expand_axis (length row) (expand_axis h Ok) (map (fun x => [x]) row)
  = Ok (map (replicate h) row).
Proof.
  unfold expand_axis at 1. rewrite length_map, Nat.eqb_refl.
  induction row as [|x row IH]; simpl; [reflexivity|].
  rewrite expand_axis_singleton. simpl. rewrite IH. reflexivity.
Qed.

Lemma expand_unsqueeze {A} (b s h : nat) (mask : tensor2 A) :
  shape2 b s mask ->
  expand (b, s, h) (unsqueeze_last mask) = Ok (map (map (replicate h)) mask).
Proof.
  intros [Hb Hs]. unfold expand, unsqueeze_last.
  unfold expand_axis at 1. rewrite length_map, Hb, Nat.eqb_refl.
  clear Hb. induction Hs as [|row mask Hr _ IH]; simpl; [reflexivity|].
  rewrite <- Hr at 1. rewrite expand_unsqueeze_row. simpl.
  rewrite IH. reflexivity.
Qed.

(** *** Sums over the token axis *)

Lemma map_replicate {A B} (f : A -> B) (n : nat) (x : A) :
  map f (replicate n x) = replicate n (f x).
Proof. induction n as [|n IH]; simpl; [reflexivity | now rewrite IH]. Qed.

Lemma vadd_replicate (h : nat) (x y : R) :
  vadd (replicate h x) (replicate h y) = replicate h (x + y).
Proof. apply zip_with_replicate. Qed.

Lemma length_vadd (u v : list R) :
  length (vadd u v) = Nat.min (length u) (length v).
Proof. apply length_zip_with. Qed.

Lemma length_foldr_vadd (h : nat) (vs : list (list R)) :
  Forall (fun v => length v = h) vs ->
  length (foldr vadd (replicate h 0) vs) = h.
Proof.
  induction 1 as [|v vs Hv _ IH]; simpl.
  - apply length_replicate.
  - rewrite length_vadd, IH, Hv. apply Nat.min_id.
Qed.

Lemma sum_expanded_mask_row (h : nat) (mrow : list Z) :
  foldr vadd (replicate h 0) (map (fun m => replicate h (IZR m)) mrow)
  = replicate h (mask_count mrow).
Proof.
  unfold mask_count, sum_list.
  induction mrow as [|m mrow IH]; simpl; [reflexivity|].
  rewrite IH. apply vadd_replicate.
Qed.

Lemma mul_expanded_mask_row (h : nat) (tokens : list (list R)) (mrow : list Z) :
  Forall (fun v => length v = h) tokens ->
  zip_with (zip_with Rmult) tokens (map (fun m => replicate h (IZR m)) mrow)
  = zip_with (fun m v => scale (IZR m) v) mrow tokens.
Proof.
  intros Hh. revert mrow.
  induction Hh as [|v tokens Hv _ IH]; intros [|m mrow]; simpl; try reflexivity.
  rewrite IH. f_equal.
  rewrite zip_with_replicate_r_eq by exact Hv.
  unfold scale. clear. induction v as [|x v IH]; simpl; [reflexivity|].
  f_equal; [apply Rmult_comm | exact IH].
Qed.

Lemma float_expanded (h : nat) (mask : tensor2 Z) :
  float (map (map (replicate h)) mask)
  = map (map (fun m => replicate h (IZR m))) mask.
Proof.
  unfold float. rewrite map_map. apply map_ext. intros row.
  rewrite map_map. apply map_ext. intros m. apply map_replicate.
Qed.

(** The hidden size read off a tensor by [sum1] is the one of
    [token_embeddings], for the expanded mask and for the product. *)
Lemma hidden_expanded (b s h : nat) (tok : tensor3 R) (mask : tensor2 Z) :
  size3 tok = (b, s, h) -> shape2 b s mask ->
  snd (size3 (map (map (fun m => replicate h (IZR m))) mask)) = h.
Proof.
  intros Hsz [Hb Hs]. unfold size3 in *. injection Hsz as H1 H2 H3.
  destruct mask as [|[|m mrow] mask]; simpl in *.
  - destruct tok; simpl in *; [congruence | lia].
  - inversion Hs as [|? ? Hr _]; subst. simpl in *.
    destruct tok as [|[|v row] tok]; simpl in *; congruence.
  - apply length_replicate.
Qed.

Lemma hidden_product (b s h : nat) (tok : tensor3 R) (mask : tensor2 Z) :
  size3 tok = (b, s, h) -> shape2 b s mask ->
  snd (size3 (mul3 tok (map (map (fun m => replicate h (IZR m))) mask))) = h.
Proof.
  intros Hsz [Hb Hs]. unfold size3, mul3 in *. injection Hsz as H1 H2 H3.
  destruct tok as [|[|v row] tok]; simpl in *.
  - congruence.
  - destruct mask; simpl in *; congruence.
  - destruct mask as [|[|m mrow] mask]; simpl in *; try lia.
    + inversion Hs; subst. simpl in *. lia.
    + rewrite length_zip_with, length_replicate. lia.
Qed.

(** *** [mean_pooling] row by row *)

Lemma pool_row (h : nat) (tokens : list (list R)) (mrow : list Z) :
  Forall (fun v => length v = h) tokens ->
  zip_with Rdiv
    (foldr vadd (replicate h 0)
       (zip_with (zip_with Rmult) tokens
                 (map (fun m => replicate h (IZR m)) mrow)))
    (map (fun x => Rmax x pool_floor)
       (foldr vadd (replicate h 0)
              (map (fun m => replicate h (IZR m)) mrow)))
  = masked_mean h tokens mrow.
Proof.
  intros Hh. rewrite mul_expanded_mask_row by exact Hh.
  rewrite sum_expanded_mask_row.
  rewrite map_replicate.
  unfold masked_mean, masked_sum.
  apply zip_with_replicate_r_eq, length_foldr_vadd.
  clear -Hh. revert mrow.
  induction Hh as [|v tokens Hv _ IH]; intros [|m mrow]; simpl; auto.
  constructor; [|apply IH]. unfold scale. now rewrite length_map.
Qed.

Lemma pool_rows (h : nat) (tok : tensor3 R) (mask : tensor2 Z) :
  Forall (fun row => Forall (fun v => length v = h) row) tok ->
  let e := map (map (fun m => replicate h (IZR m))) mask in
  div2 (map (fun row => foldr vadd (replicate h 0) row) (mul3 tok e))
       (clamp_min (map (fun row => foldr vadd (replicate h 0) row) e)
                  pool_floor)
  = zip_with (masked_mean h) tok mask.
Proof.
  intros Hh. simpl. revert mask.
  induction Hh as [|row tok Hrow _ IH]; intros [|mrow mask]; simpl;
    try reflexivity.
  unfold div2, clamp_min, mul3 in *. simpl. f_equal; [|apply IH].
  now apply pool_row.
Qed.

Lemma mean_pooling_spec (model_output : ModelOutput) (mask : tensor2 Z) :
  wf3 (getitem0 model_output) -> wf2 mask ->
  size2 mask = fst (size3 (getitem0 model_output)) ->
  mean_pooling model_output mask
  = Ok (spec_mean_pooling (getitem0 model_output) mask).
Proof.
  intros Hwf3 Hwf2 Hsz. unfold mean_pooling, spec_mean_pooling.
  set (tok := getitem0 model_output) in *.
  destruct (size3 tok) as [[b s] h] eqn:Hsize.
  assert (Hm : shape2 b s mask).
  { apply wf2_shape in Hwf2. now rewrite Hsz in Hwf2. }
  rewrite (expand_unsqueeze b s h mask Hm). simpl.
  rewrite float_expanded. unfold pool_numerator, pool_denominator, sum1.
  rewrite (hidden_product b s h tok mask Hsize Hm).
  rewrite (hidden_expanded b s h tok mask Hsize Hm).
  f_equal. apply pool_rows.
  apply wf3_shape in Hwf3. rewrite Hsize in Hwf3. destruct Hwf3 as [_ Hrows].
  eapply Forall_impl; [exact Hrows|]. now intros row [_ Hv].
Qed.

(** *** An all-padding row *)

Lemma masked_sum_zero_mask (h : nat) (tokens : list (list R)) (mrow : list Z) :
  Forall (fun v => length v = h) tokens ->
  Forall (fun m => m = 0%Z) mrow ->
  masked_sum h tokens mrow = replicate h 0.
Proof.
  unfold masked_sum. intros Hh Hz. revert tokens Hh.
  induction Hz as [|m mrow -> _ IH]; intros tokens Hh; simpl; [reflexivity|].
  destruct Hh as [|v tokens Hv Hh]; simpl; [reflexivity|].
  rewrite (IH tokens Hh).
  replace (scale 0 v) with (replicate h 0).
  - rewrite vadd_replicate. f_equal. lra.
  - subst h. unfold scale. clear. induction v as [|x v IH]; simpl;
      [reflexivity|]. f_equal; [lra | exact IH].
Qed.

Lemma mask_count_zero (mrow : list Z) :
  Forall (fun m => m = 0%Z) mrow -> mask_count mrow = 0.
Proof.
  unfold mask_count, sum_list.
  induction 1 as [|m mrow -> _ IH]; simpl; [reflexivity|].
  rewrite IH. lra.
Qed.





(** *** Unit norm after [normalize] *)




(** *** [forward] *)


Lemma forward_Ok_intro (self : BertEmbeddingMiner) (text : list string)
      enc model_output pooled :
  tokenizer self text = Ok enc ->
  to_device self (bert_device (config self)) = None ->
  model self enc = Ok model_output ->
  mean_pooling model_output (attention_mask enc) = Ok pooled ->
  forward self text = Ok (normalize pooled).
Proof.
  unfold forward, to. intros -> -> H1 H2. simpl. rewrite H1. simpl.
  rewrite H2. reflexivity.
Qed.

(** *** The claims about the embedding miner *)

(** C5. For arbitrary forward-call input, [blacklist] returns the reject
    decision [False] and [priority] returns exactly [0.0]; neither result
    depends on the miner or on the call. *)
Theorem admission_hooks_constant :
  forall (ForwardCall : Type) (self : BertEmbeddingMiner)
         (forward_call : ForwardCall),
    blacklist self forward_call = Reject false /\
    priority self forward_call = 0 /\
    (forall (self' : BertEmbeddingMiner) (forward_call' : ForwardCall),
        blacklist self forward_call = blacklist self' forward_call' /\
        priority self forward_call = priority self' forward_call').
Proof.
  intros. unfold blacklist, priority. repeat split. lra.
Qed.

(** C2. For a token-embedding tensor and an attention mask of matching
    sizes, [mean_pooling] returns, per input row, the sum of the token
    vectors weighted by the mask, divided by the mask count of the row
    floored at 1e-9; [forward] normalizes exactly this reduction of the
    model output. *)
Theorem mean_pooling_is_masked_mean :
  forall (model_output : ModelOutput) (mask : tensor2 Z),
    wf3 (getitem0 model_output) -> wf2 mask ->
    size2 mask = fst (size3 (getitem0 model_output)) ->
    mean_pooling model_output mask
    = Ok (spec_mean_pooling (getitem0 model_output) mask) /\
    pool_floor = 1 / 10 ^ 9 /\
    forall (self : BertEmbeddingMiner) (text : list string)
           (enc : BatchEncoding),
      tokenizer self text = Ok enc ->
      to_device self (bert_device (config self)) = None ->
      model self enc = Ok model_output ->
      attention_mask enc = mask ->
      forward self text
      = Ok (normalize (spec_mean_pooling (getitem0 model_output) mask)).
Proof.
  intros mo mask Hwf3 Hwf2 Hsz.
  pose proof (mean_pooling_spec mo mask Hwf3 Hwf2 Hsz) as Hpool.
  split; [exact Hpool|]. split; [unfold pool_floor; lra|].
  intros self text enc Htok Hdev Hmodel <-.
  now apply (forward_Ok_intro self text enc mo).
Qed.

(** A mask whose sizes do not fit the token embeddings makes [expand]
    raise. *)
Lemma mean_pooling_size_mismatch :
  mean_pooling demo_output [[1; 1]; [0; 0]]%Z
  = Except (RuntimeError "expand: sizes do not match").
Proof. reflexivity. Qed.

Lemma demo_shapes :
  wf3 (getitem0 demo_output) /\ wf2 (attention_mask demo_encoding) /\
  size2 (attention_mask demo_encoding) = fst (size3 (getitem0 demo_output)).
Proof.
  unfold wf3, wf2. simpl. repeat constructor.
Qed.

Lemma mean_pooling_is_masked_mean_witness :
  mean_pooling demo_output (attention_mask demo_encoding)
  = Ok (spec_mean_pooling (getitem0 demo_output)
                          (attention_mask demo_encoding)) /\
  forward demo_miner ["hello"; ""]
  = Ok (normalize (spec_mean_pooling (getitem0 demo_output)
                                     (attention_mask demo_encoding))).
Proof.
  destruct demo_shapes as (H3 & H2 & Hs).
  destruct (mean_pooling_is_masked_mean
              demo_output (attention_mask demo_encoding) H3 H2 Hs)
    as (Hpool & _ & Hfwd).
  split; [exact Hpool|].
  apply (Hfwd demo_miner ["hello"; ""] demo_encoding); reflexivity.
Defined.








End BertFacts.

(* ===================================================================== *)
(** ** Results: strings *)
(* ===================================================================== *)

Section StringFacts.
Import Bloom.
Local Open Scope string_scope.

(** [String.append] is kept folded by [simpl]; these two equations
    unfold it one step. *)
Lemma app_nil_l (b : string) : "" +:+ b = b.
Proof. reflexivity. Qed.

Lemma app_cons (x : ascii) (a b : string) :
  String x a +:+ b = String x (a +:+ b).
Proof. reflexivity. Qed.

Lemma app_assoc (a b c : string) : (a +:+ b) +:+ c = a +:+ (b +:+ c).
Proof.
  induction a as [|x a IH]; [reflexivity|].
  now rewrite !app_cons, IH.
Qed.

Lemma app_nil_r (a : string) : a +:+ "" = a.
Proof.
  induction a as [|x a IH]; [reflexivity|]. now rewrite app_cons, IH.
Qed.

Lemma startswith_append (p s : string) : startswith p (p +:+ s) = true.
Proof.
  induction p as [|x p IH]; [reflexivity|].
  rewrite app_cons. simpl. now rewrite Ascii.eqb_refl.
Qed.

Lemma startswith_inv (p s : string) :
  startswith p s = true -> exists b, s = p +:+ b.
Proof.
  revert s. induction p as [|x p IH]; intros s H; simpl in *.
  - now exists s.
  - destruct s as [|y s]; [discriminate|].
    destruct (Ascii.eqb_spec x y) as [->|]; [|discriminate].
    destruct (IH s H) as [b ->]. now exists b.
Qed.

Lemma startswith_occurs (p s : string) : startswith p s = true -> occurs p s.
Proof.
  intros H. destruct (startswith_inv p s H) as [b ->]. now exists "", b.
Qed.

Lemma occurs_tail (old s : string) (c : ascii) :
  occurs old s -> occurs old (String c s).
Proof. intros (a & b & ->). now exists (String c a), b. Qed.

(** *** [replace] *)

Lemma replace_from_skip (old new a rest : string) :
  replace_from old new (String.length a) (a +:+ rest)
  = replace_from old new 0 rest.
Proof.
  induction a as [|x a IH]; [reflexivity|].
  rewrite app_cons. simpl. exact IH.
Qed.

(** An occurrence at the front is replaced, and the scan goes on behind
    it. *)
Lemma replace_front (old new rest : string) :
  old <> "" ->
  replace (old +:+ rest) old new = new +:+ replace rest old new.
Proof.
  destruct old as [|c old]; [congruence|]. intros _. unfold replace.
  pose proof (startswith_append (String c old) rest) as Hsw.
  rewrite app_cons in *. cbn [replace_from]. rewrite Hsw.
  replace (String.length (String c old) - 1) with (String.length old)
    by (simpl; lia).
  now rewrite replace_from_skip.
Qed.

(** A string in which [old] does not occur is left as it is. *)
Lemma replace_absent (s old new : string) :
  old <> "" -> ~ occurs old s -> replace s old new = s.
Proof.
  destruct old as [|c old]; [congruence|]. intros _. unfold replace.
  induction s as [|x s IH]; intros Hno; [reflexivity|].
  cbn [replace_from].
  destruct (startswith (String c old) (String x s)) eqn:Hsw.
  - destruct Hno. now apply startswith_occurs.
  - f_equal. apply IH. intros H. apply Hno. now apply occurs_tail.
Qed.

(** *** Characters *)

Lemma has_char_append (c : ascii) (a b : string) :
  has_char c (a +:+ b) <-> has_char c a \/ has_char c b.
Proof.
  unfold has_char. induction a as [|x a IH]; [simpl; tauto|].
  rewrite app_cons. simpl. rewrite IH. tauto.
Qed.

Lemma occurs_has_char (c : ascii) (old s : string) :
  occurs old s -> has_char c old -> has_char c s.
Proof.
  intros (a & b & ->) H. rewrite !has_char_append. tauto.
Qed.

(** *** [split] *)

Lemma split_nonempty (sep : ascii) (s : string) : split sep s <> [].
Proof.
  induction s as [|c s IH]; simpl; [discriminate|].
  destruct (Ascii.eqb c sep); [discriminate|].
  destruct (split sep s); discriminate.
Qed.

Lemma last_split_no_sep (sep : ascii) (s seg : string) :
  last (split sep s) = Some seg -> ~ has_char sep seg.
Proof.
  revert seg. induction s as [|c s IH]; intros seg; simpl.
  - intros [= <-]. intros [].
  - destruct (Ascii.eqb_spec c sep) as [->|Hne].
    + pose proof (split_nonempty sep s) as Hn.
      destruct (split sep s) as [|x l] eqn:E; [congruence|].
      rewrite last_cons_cons. apply IH.
    + destruct (split sep s) as [|x [|y l]] eqn:E.
      * intros [= <-]. unfold has_char. simpl. intros [|[]]; congruence.
      * simpl. intros [= <-]. unfold has_char. simpl.
        intros [H|H]; [congruence|]. now apply (IH x).
      * rewrite last_cons_cons. apply IH.
Qed.

Lemma getitem_last_split (sep : ascii) (s : string) :
  exists seg, getitem_last (split sep s) = Ok seg /\ ~ has_char sep seg.
Proof.
  unfold getitem_last.
  destruct (last (split sep s)) as [seg|] eqn:E.
  - exists seg. split; [reflexivity|]. now apply (last_split_no_sep sep s).
  - apply last_None in E. now apply split_nonempty in E.
Qed.

End StringFacts.

(* ===================================================================== *)
(** ** Results: the chat miner *)
(* ===================================================================== *)

Section BloomFacts.
Import Bloom.
Local Open Scope string_scope.

(** *** [_process_history] *)

Lemma process_message_spec (acc : string) (d : gmap string string)
      (m : string * string) :
  is_message d m ->
  process_message acc d = Ok (acc +:+ transcript_line m.1 m.2).
Proof.
  destruct m as [role content]. intros [Hr Hc]. simpl in *.
  unfold process_message, getitem, transcript_line. rewrite Hr, Hc. simpl.
  destruct (String.eqb_spec role "system") as [->|Hs]; simpl.
  { reflexivity. }
  destruct (String.eqb_spec role "assistant") as [->|Ha]; simpl.
  { reflexivity. }
  destruct (String.eqb_spec role "user") as [->|Hu]; simpl.
  { reflexivity. }
  now rewrite app_nil_r.
Qed.

Lemma process_loop_spec (acc : string) (history : list (gmap string string))
      (messages : list (string * string)) :
  Forall2 is_message history messages ->
  process_loop acc history = Ok (acc +:+ spec_transcript messages).
Proof.
  intros H. revert acc.
  induction H as [|d m history messages Hm _ IH]; intros acc; simpl.
  - now rewrite app_nil_r.
  - rewrite (process_message_spec acc d m Hm). simpl.
    rewrite IH. now rewrite app_assoc.
Qed.

Lemma marker_line_colon (acc marker content : string) :
  has_char colon marker ->
  empty_or_colon (acc +:+ (marker +:+ content +:+ nl)).
Proof.
  intros H. right. rewrite !has_char_append. tauto.
Qed.

Lemma human_colon : has_char colon "<human>: ".
Proof. unfold has_char, colon. simpl. tauto. Qed.

Lemma bot_colon : has_char colon "<bot>: ".
Proof. unfold has_char, colon. simpl. tauto. Qed.

Lemma process_message_colon (acc acc' : string) (d : gmap string string) :
  process_message acc d = Ok acc' ->
  empty_or_colon acc -> empty_or_colon acc'.
Proof.
  unfold process_message, getitem.
  destruct (d !! "role") as [role|]; [simpl|discriminate].
  destruct (d !! "content") as [content|]; simpl;
    destruct (String.eqb role "system"),
             (String.eqb role "assistant"),
             (String.eqb role "user"); simpl;
    try discriminate; intros [= <-] Hacc;
    auto using marker_line_colon, human_colon, bot_colon.
Qed.

Lemma process_loop_colon (acc s : string) (history : list (gmap string string)) :
  process_loop acc history = Ok s -> empty_or_colon acc -> empty_or_colon s.
Proof.
  revert acc. induction history as [|d history IH]; intros acc; simpl.
  - now intros [= <-].
  - destruct (process_message acc d) as [acc'|e] eqn:E; [simpl|discriminate].
    intros H Hacc. apply (IH acc' H).
    now apply (process_message_colon acc acc' d).
Qed.

Lemma process_history_colon (s : string) (history : list (gmap string string)) :
  _process_history history = Ok s -> s <> "" -> has_char colon s.
Proof.
  intros H Hne.
  destruct (process_loop_colon "" s history H) as [->|Hc]; auto.
  - now left.
  - congruence.
Qed.

(** C6. For every list of dicts that are role-tagged messages,
    [_process_history] returns the in-order concatenation of one line
    per recognized message: [<human>: ], the content and a newline for
    the roles [system] and [user]; [<bot>: ], the content and a newline
    for the role [assistant]; nothing for another role.  The empty list
    yields the empty string. *)
Theorem process_history_is_transcript :
  forall (history : list (gmap string string))
         (messages : list (string * string)),
    Forall2 is_message history messages ->
    _process_history history = Ok (spec_transcript messages) /\
    _process_history [] = Ok "" /\
    (forall content : string,
        transcript_line "system" content = "<human>: " +:+ content +:+ nl /\
        transcript_line "user" content = "<human>: " +:+ content +:+ nl /\
        transcript_line "assistant" content = "<bot>: " +:+ content +:+ nl).
Proof.
  intros history messages H. split; [|split].
  - unfold _process_history. now rewrite (process_loop_spec "" _ _ H).
  - reflexivity.
  - intros content. repeat split.
Qed.

Lemma hello_is_message : is_message hello ("user", "hello").
Proof. split; reflexivity. Qed.

Lemma process_history_is_transcript_witness :
  _process_history [hello] = Ok ("<human>: hello" +:+ nl).
Proof.
  assert (H : Forall2 is_message [hello] [("user", "hello")])
    by (repeat constructor).
  destruct (process_history_is_transcript _ _ H) as [Hh _].
  exact Hh.
Defined.

(** *** Stepping through a statement sequence *)

Lemma bindM_Ok {A B} (c : M A) (k : A -> M B) (w w1 : world) (a : A) :
  c w = (Ok a, w1) -> (c ≫= k) w = k a w1.
Proof. intros H. unfold mbind, M_bind, bindM. now rewrite H. Qed.

Lemma bindM_Except {A B} (c : M A) (k : A -> M B) (w w1 : world) (e : pyexn) :
  c w = (Except e, w1) -> (c ≫= k) w = (Except e, w1).
Proof. intros H. unfold mbind, M_bind, bindM. now rewrite H. Qed.

Lemma bindM_inv {A B} (c : M A) (k : A -> M B) (w w2 : world) (b : B) :
  (c ≫= k) w = (Ok b, w2) ->
  exists a w1, c w = (Ok a, w1) /\ k a w1 = (Ok b, w2).
Proof.
  unfold mbind, M_bind, bindM.
  destruct (c w) as [[a|e] w1]; [eauto | discriminate].
Qed.

Lemma lift_inv {A} (r : result A) (w w1 : world) (a : A) :
  lift r w = (Ok a, w1) -> r = Ok a /\ w1 = w.
Proof. unfold lift. now intros [= -> ->]. Qed.

Lemma getattr_Some (self : BloomChatMiner) (name : string) (v : pyval)
      (w : world) :
  attrs self !! name = Some v -> getattr self name w = (Ok v, w).
Proof. unfold getattr. now intros ->. Qed.

Lemma getattr_None (self : BloomChatMiner) (name : string) (w : world) :
  attrs self !! name = None ->
  getattr self name w = (Except (AttributeError name), w).
Proof. unfold getattr. now intros ->. Qed.

Lemma getattr_inv (self : BloomChatMiner) (name : string) (v : pyval)
      (w w1 : world) :
  getattr self name w = (Ok v, w1) -> attrs self !! name = Some v /\ w1 = w.
Proof.
  unfold getattr. destruct (attrs self !! name) as [v'|].
  - now intros [= -> ->].
  - discriminate.
Qed.

Lemma get_tokenizer_inv (self : BloomChatMiner) (member : string)
      (t : Tokenizer) (w w1 : world) :
  (v ← getattr self "tokenizer"; as_tokenizer v member) w = (Ok t, w1) ->
  attrs self !! "tokenizer" = Some (VTokenizer t) /\ w1 = w.
Proof.
  intros H. apply bindM_inv in H as (v & w' & Hv & H).
  apply getattr_inv in Hv as [Hv ->].
  destruct v; try discriminate. injection H as ? ?. subst. auto.
Qed.

Ltac step H := apply bindM_inv in H; destruct H as (? & ? & ? & H).

(** *** Echo stripping *)

Lemma forward_polite :
  exists w' : world,
    forward demo_lib polite_miner [hello] w0 = (Ok "<bot>: hi", w').
Proof. eexists. vm_compute. reflexivity. Qed.

Lemma forward_chat :
  exists w' : world,
    forward demo_lib chat_miner [hello] w0 = (Ok " hi", w').
Proof. eexists. vm_compute. reflexivity. Qed.

Lemma hello_transcript_nonempty : "<human>: hello" +:+ nl <> "".
Proof. discriminate. Qed.

Lemma transcript_not_in_reply : ~ occurs ("<human>: hello" +:+ nl) "<bot>: hi".
Proof.
  intros H. apply (occurs_has_char (ascii_of_nat 10)) in H.
  - unfold has_char in H. simpl in H.
    repeat (destruct H as [H|H]; [discriminate|]). exact H.
  - unfold has_char. simpl. tauto.
Qed.

(** C4, as stated, fails.  In the deepspeed branch a decoded output that
    holds the transcript inside a copy of itself loses the inner copy
    only, and what [forward] returns for the example transcript is the
    transcript.  And the transcript of the empty message list is the
    empty string, which every returned string starts with. *)
Lemma echo_survives_one_pass :
  _process_history [hello] = Ok ("<human>: hello" +:+ nl) /\
  (exists w' : world,
      forward demo_lib echo_miner [hello] w0
      = (Ok ("<human>: hello" +:+ nl), w')) /\
  startswith ("<human>: hello" +:+ nl) ("<human>: hello" +:+ nl) = true /\
  _process_history [] = Ok "" /\
  (exists w' : world,
      forward demo_lib chat_miner [] w0 = (Ok " hi", w')) /\
  startswith "" " hi" = true.
Proof.
  split; [reflexivity|]. split; [eexists; vm_compute; reflexivity|].
  split; [reflexivity|]. split; [reflexivity|].
  split; [eexists; vm_compute; reflexivity | reflexivity].
Qed.

(** *** Failures of the model call *)

Lemma bert_model_failure (self : Bert.BertEmbeddingMiner)
      (text : list string) (enc : Bert.BatchEncoding) (e : pyexn) :
  Bert.tokenizer self text = Ok enc ->
  Bert.to_device self (Bert.bert_device (Bert.config self)) = None ->
  Bert.model self enc = Except e ->
  Bert.forward self text = Except e.
Proof.
  unfold Bert.forward, Bert.to. intros -> -> H. simpl. now rewrite H.
Qed.

Lemma deepspeed_model_failure (lib : Lib) (self : BloomChatMiner)
      (messages : list (gmap string string)) (history : string)
      (tok : Tokenizer) (encoded inputs : list (list Z)) (rank : Z)
      (engine : DeepSpeedEngine) (e : pyexn) (w w2 w3 w4 : world) :
  _process_history messages = Ok history ->
  deployment_framework (config self) = "deepspeed" ->
  attrs self !! "tokenizer" = Some (VTokenizer tok) ->
  encode tok history (tick w) = (Ok encoded, w2) ->
  attrs self !! "local_rank" = Some (VInt rank) ->
  tensor_to lib encoded rank w2 = (Ok inputs, w3) ->
  attrs self !! "ds_engine" = Some (VEngine engine) ->
  generate (module engine) inputs 60 w3 = (Except e, w4) ->
  forward lib self messages w = (Except e, w4).
Proof.
  intros Hh Hd Htok Henc Hrank Hto Heng Hgen.
  unfold forward. rewrite Hh, Hd. simpl.
  unfold mbind, M_bind, bindM, lift, getattr. simpl.
  rewrite Htok. simpl. unfold tick in Henc. simpl in Henc.
  rewrite Henc, Hrank. simpl.
  rewrite Hto, Heng. simpl. now rewrite Hgen.
Qed.

Lemma accelerate_model_failure (lib : Lib) (self : BloomChatMiner)
      (messages : list (gmap string string)) (history : string)
      (p : Pipeline) (tok : Tokenizer) (e : pyexn) (w w2 : world) :
  _process_history messages = Ok history ->
  deployment_framework (config self) <> "deepspeed" ->
  attrs self !! "pipe" = Some (VPipeline p) ->
  attrs self !! "tokenizer" = Some (VTokenizer tok) ->
  call p history (forward_pipe_kwargs tok) (tick w) = (Except e, w2) ->
  forward lib self messages w = (Except e, w2).
Proof.
  intros Hh Hd Hpipe Htok Hcall. apply String.eqb_neq in Hd.
  unfold forward. rewrite Hh, Hd.
  unfold mbind, M_bind, bindM, lift, getattr. simpl.
  rewrite Hpipe, Htok. simpl. unfold tick, forward_pipe_kwargs in Hcall.
  simpl in Hcall. now rewrite Hcall.
Qed.

(** C8. When the model call inside [forward] raises, [forward] raises
    the same exception, in the world the call left: the embedding miner
    for a raising [self.model], the chat miner for a raising [generate]
    (deepspeed) and a raising pipeline (accelerate).  Nothing is caught,
    retried or substituted. *)
Theorem model_failure_propagates :
  (forall (self : Bert.BertEmbeddingMiner) (text : list string)
          (enc : Bert.BatchEncoding) (e : pyexn),
      Bert.tokenizer self text = Ok enc ->
      Bert.to_device self (Bert.bert_device (Bert.config self)) = None ->
      Bert.model self enc = Except e ->
      Bert.forward self text = Except e) /\
  (forall (lib : Lib) (self : BloomChatMiner)
          (messages : list (gmap string string)) (history : string)
          (tok : Tokenizer) (encoded inputs : list (list Z)) (rank : Z)
          (engine : DeepSpeedEngine) (e : pyexn) (w w2 w3 w4 : world),
      _process_history messages = Ok history ->
      deployment_framework (config self) = "deepspeed" ->
      attrs self !! "tokenizer" = Some (VTokenizer tok) ->
      encode tok history (tick w) = (Ok encoded, w2) ->
      attrs self !! "local_rank" = Some (VInt rank) ->
      tensor_to lib encoded rank w2 = (Ok inputs, w3) ->
      attrs self !! "ds_engine" = Some (VEngine engine) ->
      generate (module engine) inputs 60 w3 = (Except e, w4) ->
      forward lib self messages w = (Except e, w4)) /\
  (forall (lib : Lib) (self : BloomChatMiner)
          (messages : list (gmap string string)) (history : string)
          (p : Pipeline) (tok : Tokenizer) (e : pyexn) (w w2 : world),
      _process_history messages = Ok history ->
      deployment_framework (config self) <> "deepspeed" ->
      attrs self !! "pipe" = Some (VPipeline p) ->
      attrs self !! "tokenizer" = Some (VTokenizer tok) ->
      call p history (forward_pipe_kwargs tok) (tick w) = (Except e, w2) ->
      forward lib self messages w = (Except e, w2)).
Proof.
  split; [exact bert_model_failure|].
  split; [exact deepspeed_model_failure | exact accelerate_model_failure].
Qed.

Lemma model_failure_propagates_witness :
  Bert.forward Bert.failing_miner ["hello"]
  = Except (RuntimeError "CUDA out of memory") /\
  forward demo_lib failing_deepspeed_miner [hello] w0 = (Except oom, tick w0) /\
  forward demo_lib failing_accelerate_miner [hello] w0
  = (Except oom, tick w0).
Proof.
  destruct model_failure_propagates as (Hbert & Hds & Hacc).
  split; [|split].
  - apply (Hbert Bert.failing_miner ["hello"] Bert.demo_encoding);
      reflexivity.
  - apply (Hds demo_lib failing_deepspeed_miner [hello]
               ("<human>: hello" +:+ nl) polite_tokenizer [[1%Z]] [[1%Z]]
               0%Z {| module := failing_model |} oom w0 (tick w0) (tick w0));
      reflexivity.
  - apply (Hacc demo_lib failing_accelerate_miner [hello]
                ("<human>: hello" +:+ nl)
                {| call := fun _ _ => raise oom |} polite_tokenizer);
      try reflexivity. discriminate.
Defined.

(** *** The accelerate branch of [__init__] *)

Lemma init_accelerate (lib : Lib) (super_init : M BloomChatMiner)
      (self : BloomChatMiner) (tok : Tokenizer) (w w1 w2 : world) :
  super_init w = (Ok self, w1) ->
  deployment_framework (config self) <> "deepspeed" ->
  attrs self !! "model_name" = None ->
  AutoTokenizer_from_pretrained lib (bloom_model_name (config self)) w1
  = (Ok tok, w2) ->
  __init__ lib super_init w = (Except (AttributeError "model_name"), w2).
Proof.
  intros Hsuper Hd Hname Htok. apply String.eqb_neq in Hd.
  unfold __init__. rewrite (bindM_Ok _ _ _ _ _ Hsuper).
  rewrite (bindM_Ok _ _ _ _ _ Htok), Hd.
  apply bindM_Except, bindM_Except. now apply getattr_None.
Qed.

Lemma init_accelerate_fails (lib : Lib) (super_init : M BloomChatMiner)
      (w : world) :
  (forall self w1, super_init w = (Ok self, w1) ->
     deployment_framework (config self) <> "deepspeed" /\
     attrs self !! "model_name" = None) ->
  exists e w', __init__ lib super_init w = (Except e, w').
Proof.
  intros H. destruct (super_init w) as [[self|e] w1] eqn:Hsuper.
  - destruct (H self w1 eq_refl) as [Hd Hname].
    destruct (AutoTokenizer_from_pretrained lib
                (bloom_model_name (config self)) w1)
      as [[tok|e] w2] eqn:Htok.
    + exists (AttributeError "model_name"), w2.
      now apply (init_accelerate lib super_init self tok w w1 w2).
    + exists e, w2. unfold __init__. rewrite (bindM_Ok _ _ _ _ _ Hsuper).
      now apply bindM_Except.
  - exists e, w1. unfold __init__. now apply bindM_Except.
Qed.

Lemma forward_accelerate_no_tokenizer (lib : Lib) (self : BloomChatMiner)
      (messages : list (gmap string string)) (w : world) :
  deployment_framework (config self) <> "deepspeed" ->
  attrs self !! "tokenizer" = None ->
  exists e w',
    forward lib self messages w = (Except e, w') /\
    forall (history : string) (p : Pipeline),
      _process_history messages = Ok history ->
      attrs self !! "pipe" = Some (VPipeline p) ->
      e = AttributeError "tokenizer" /\ w' = tick w.
Proof.
  intros Hd Htok. apply String.eqb_neq in Hd. unfold forward.
  destruct (_process_history messages) as [history|e] eqn:Hh.
  - rewrite Hd. unfold mbind, M_bind, bindM, lift, getattr. simpl.
    rewrite Htok.
    destruct (attrs self !! "pipe") as [[n|s0|t|m|en|p]|] eqn:Hp; simpl;
      eexists; eexists; (split; [reflexivity|]);
      intros history' p' _ [=]. split; reflexivity.
  - exists e, w. split; [reflexivity|]. intros history p [=].
Qed.

(** C9. Let the object the base class leaves have a configuration whose
    [deployment_framework] is not [deepspeed] and no attribute
    [model_name].  Then [__init__] raises: when the base initialiser and
    the loading of the tokenizer succeed, it raises the attribute error
    on [model_name], in the world the tokenizer loading left, so before
    any model is loaded or pipeline built.  And on an object without the
    attribute [tokenizer], [forward] raises in the accelerate branch; once
    [self.pipe] is read, it is the attribute error on [tokenizer], before
    the pipeline is called. *)
Theorem accelerate_construction_fails :
  forall (lib : Lib) (super_init : M BloomChatMiner) (w : world),
    (forall self w1, super_init w = (Ok self, w1) ->
       deployment_framework (config self) <> "deepspeed" /\
       attrs self !! "model_name" = None) ->
    (exists e w', __init__ lib super_init w = (Except e, w')) /\
    (forall self tok w1 w2,
        super_init w = (Ok self, w1) ->
        AutoTokenizer_from_pretrained lib (bloom_model_name (config self)) w1
        = (Ok tok, w2) ->
        __init__ lib super_init w
        = (Except (AttributeError "model_name"), w2)) /\
    (forall (self : BloomChatMiner) (messages : list (gmap string string))
            (wf : world),
        deployment_framework (config self) <> "deepspeed" ->
        attrs self !! "tokenizer" = None ->
        exists e w',
          forward lib self messages wf = (Except e, w') /\
          forall (history : string) (p : Pipeline),
            _process_history messages = Ok history ->
            attrs self !! "pipe" = Some (VPipeline p) ->
            e = AttributeError "tokenizer" /\ w' = tick wf).
Proof.
  intros lib super_init w H. split; [|split].
  - now apply init_accelerate_fails.
  - intros self tok w1 w2 Hsuper Htok.
    destruct (H self w1 Hsuper) as [Hd Hname].
    now apply (init_accelerate lib super_init self tok w w1 w2).
  - intros self messages wf. apply forward_accelerate_no_tokenizer.
Qed.

Lemma accelerate_construction_fails_witness :
  __init__ demo_lib (mret (bare_miner accelerate_config)) w0
  = (Except (AttributeError "model_name"), w0).
Proof.
  assert (H : forall self w1,
             (mret (bare_miner accelerate_config) : M BloomChatMiner) w0
             = (Ok self, w1) ->
             deployment_framework (config self) <> "deepspeed" /\
             attrs self !! "model_name" = None).
  { intros self w1 [= <- <-]. split; [discriminate | reflexivity]. }
  destruct (accelerate_construction_fails demo_lib _ w0 H) as (_ & Hinit & _).
  apply (Hinit (bare_miner accelerate_config)
               {| encode := fun _ => mret [[1%Z]];
                  decode := fun _ => mret "";
                  eos_token_id := Some 2%Z |} w0 w0); reflexivity.
Defined.

(** The deepspeed branch of [__init__] runs to its end on a base object
    without attributes, and assigns [local_rank], [model] and [ds_engine]:
    the tokenizer it loaded stays in a local variable, and [forward] on
    the object it returns raises on [self.tokenizer]. *)
Lemma init_deepspeed_demo :
  exists (self : BloomChatMiner) (w' : world),
    __init__ demo_lib (mret (bare_miner deepspeed_config)) w0 = (Ok self, w') /\
    dom (attrs self) = {["local_rank"; "model"; "ds_engine"]} /\
    (forward demo_lib self [hello] w0).1 = Except (AttributeError "tokenizer").
Proof.
  eexists. eexists. split; [vm_compute; reflexivity|].
  split; vm_compute; reflexivity.
Qed.

(** *** The flag [--bloom.max_new_tokens] *)









End BloomFacts.

(* ===================================================================== *)
(** ** Results: the text-to-video synapse *)
(* ===================================================================== *)

Section TextToVideoFacts.
Import TextToVideo.

Lemma init_synapse {ForwardCall Axon Rewards : Type}
      (super_init : M (BaseTextToVideoMiner ForwardCall Axon Rewards))
      (new_synapse : Synapse ForwardCall Rewards -> Axon -> M unit)
      (w w' : world) (self' : BaseTextToVideoMiner ForwardCall Axon Rewards) :
  __init__ super_init new_synapse w = (Ok self', w') ->
  exists self w1,
    super_init w = (Ok self, w1) /\
    impl self' = impl self /\
    synapse self' = Some (make_Synapse self, axon self).
Proof.
  unfold __init__, mbind, M_bind, bindM.
  destruct (super_init w) as [[self|e] w1]; [|discriminate].
  destruct (new_synapse _ _ w1) as [[[]|e] w2]; [|discriminate].
  intros [= <- <-]. exists self, w1. auto.
Qed.

(** C7. The class [Synapse] that [__init__] builds delegates: its
    [forward], [blacklist] and [priority] are the miner's, on the same
    arguments, and its [backward] returns [None] and leaves the world as
    it is.  The synapse [__init__] stores is this one. *)
Theorem synapse_is_pure_delegation :
  forall (ForwardCall Axon Rewards : Type)
         (self : BaseTextToVideoMiner ForwardCall Axon Rewards),
    (forall text num_inference_steps num_frames fps,
        synapse_forward (make_Synapse self)
                        text num_inference_steps num_frames fps
        = forward (impl self) text num_inference_steps num_frames fps) /\
    (forall forward_call,
        synapse_blacklist (make_Synapse self) forward_call
        = blacklist (impl self) forward_call) /\
    (forall forward_call,
        synapse_priority (make_Synapse self) forward_call
        = priority (impl self) forward_call) /\
    (forall video text rewards w,
        synapse_backward (make_Synapse self) video text rewards w
        = (Ok None, w)) /\
    (forall super_init new_synapse w w1 w' self',
        super_init w = (Ok self, w1) ->
        __init__ super_init new_synapse w = (Ok self', w') ->
        impl self' = impl self /\
        synapse self' = Some (make_Synapse self, axon self)).
Proof.
  intros ForwardCall Axon Rewards self.
  do 4 (split; [reflexivity|]).
  intros super_init new_synapse w w1 w' self' Hsuper Hinit.
  destruct (init_synapse _ _ _ _ _ Hinit) as (self0 & w2 & Hs & Hi & Hsy).
  rewrite Hsuper in Hs. injection Hs as <- _. auto.
Qed.

Lemma synapse_is_pure_delegation_witness :
  exists self' : BaseTextToVideoMiner unit string unit,
    __init__ (mret video_miner) (fun _ _ => mret tt) Bloom.w0
    = (Ok self', Bloom.w0) /\
    synapse self' = Some (make_Synapse video_miner, "axon").
Proof.
  exists {| impl := demo_methods; axon := "axon";
            synapse := Some (make_Synapse video_miner, "axon") |}.
  split; [reflexivity|].
  destruct (synapse_is_pure_delegation unit string unit video_miner)
    as (_ & _ & _ & _ & Hinit).
  exact (proj2 (Hinit (@mret M _ _ video_miner) (fun _ _ => mret tt)
                      Bloom.w0 Bloom.w0 Bloom.w0 _ eq_refl eq_refl)).
Defined.

End TextToVideoFacts.

(* ===================================================================== *)
(** ** Further results: the embedding miner *)
(* ===================================================================== *)

Section BertMore.
Import Bert.
Local Open Scope R_scope.

(** *** Shapes *)

Lemma shape3_wf {A} (b s h : nat) (t : tensor3 A) :
  shape3 b s h t -> size3 t = (b, s, h) -> wf3 t.
Proof.
  intros [_ Hrows] Hsz. unfold wf3. rewrite Hsz. exact Hrows.
Qed.

Lemma length_masked_sum (h : nat) (tokens : list (list R)) (mrow : list Z) :
  Forall (fun v => length v = h) tokens ->
  length (masked_sum h tokens mrow) = h.
Proof.
  intros Hh. unfold masked_sum. apply length_foldr_vadd.
  revert mrow. induction Hh as [|v tokens Hv _ IH]; intros [|m mrow]; simpl;
    auto.
  constructor; [|apply IH]. unfold scale. now rewrite length_map.
Qed.

Lemma length_masked_mean (h : nat) (tokens : list (list R)) (mrow : list Z) :
  Forall (fun v => length v = h) tokens ->
  length (masked_mean h tokens mrow) = h.
Proof.
  intros Hh. unfold masked_mean. rewrite length_map.
  now apply length_masked_sum.
Qed.

Lemma spec_mean_pooling_shape (b s h : nat) (tok : tensor3 R) (mask : tensor2 Z) :
  shape3 b s h tok -> shape2 b s mask ->
  shape2 b h (zip_with (masked_mean h) tok mask).
Proof.
  intros [Hb Hrows] [Hb' _]. split.
  - rewrite length_zip_with. lia.
  - clear Hb Hb'. revert mask.
    induction Hrows as [|row tok [_ Hv] _ IH]; intros [|mrow mask]; simpl;
      constructor; [now apply length_masked_mean | apply IH].
Qed.

Lemma normalize_shape (b h : nat) (x : tensor2 R) :
  shape2 b h x -> shape2 b h (normalize x).
Proof.
  intros [Hb Hrows]. unfold normalize. split.
  - now rewrite length_map.
  - clear Hb. induction Hrows as [|row x Hr _ IH]; simpl; constructor; auto.
    now rewrite length_map.
Qed.

Lemma wf_shapes (b s h : nat) (tok : tensor3 R) (mask : tensor2 Z) :
  wf3 tok -> wf2 mask -> size2 mask = fst (size3 tok) ->
  size3 tok = (b, s, h) ->
  shape3 b s h tok /\ shape2 b s mask.
Proof.
  intros H3 H2 Hsz Hsize. split.
  - apply wf3_shape in H3. now rewrite Hsize in H3.
  - apply wf2_shape in H2. now rewrite Hsz, Hsize in H2.
Qed.

(** One vector of the hidden size per encoded string: for a rectangular
    model output of size [b x s x h] and a mask of size [b x s], [forward]
    returns, and what it returns has [b] rows of length [h]. *)
Theorem forward_output_shape :
  forall (self : BertEmbeddingMiner) (text : list string)
         (enc : BatchEncoding) (model_output : ModelOutput) (b s h : nat),
    tokenizer self text = Ok enc ->
    to_device self (bert_device (config self)) = None ->
    model self enc = Ok model_output ->
    wf3 (getitem0 model_output) -> wf2 (attention_mask enc) ->
    size2 (attention_mask enc) = fst (size3 (getitem0 model_output)) ->
    size3 (getitem0 model_output) = (b, s, h) ->
    exists out : tensor2 R,
      forward self text = Ok out /\
      length out = b /\ Forall (fun row => length row = h) out.
Proof.
  intros self text enc mo b s h Htok Hdev Hmodel H3 H2 Hsz Hsize.
  pose proof (mean_pooling_spec mo _ H3 H2 Hsz) as Hpool.
  destruct (wf_shapes b s h _ _ H3 H2 Hsz Hsize) as [Ht Hm].
  eexists. split.
  - exact (forward_Ok_intro self text enc mo _ Htok Hdev Hmodel Hpool).
  - apply (normalize_shape b h). unfold spec_mean_pooling. rewrite Hsize.
    now apply (spec_mean_pooling_shape b s h).
Qed.

Lemma forward_output_shape_witness :
  exists out : tensor2 R,
    forward demo_miner ["hello"; ""] = Ok out /\
    length out = 2%nat /\ Forall (fun row => length row = 2%nat) out.
Proof.
  destruct demo_shapes as (H3 & H2 & Hs).
  exact (forward_output_shape demo_miner ["hello"; ""] demo_encoding
           demo_output 2 3 2 eq_refl eq_refl eq_refl H3 H2 Hs eq_refl).
Defined.

(** *** Masked positions *)

Lemma scale_zero (h : nat) (v : list R) :
  length v = h -> scale 0 v = replicate h 0.
Proof.
  intros <-. unfold scale. induction v as [|x v IH]; simpl; [reflexivity|].
  f_equal; [lra | exact IH].
Qed.

Lemma masked_sum_agree (h : nat) (mrow : list Z) (row row' : list (list R)) :
  Forall (fun v => length v = h) row ->
  Forall (fun v => length v = h) row' ->
  agree_row mrow row row' ->
  masked_sum h row mrow = masked_sum h row' mrow.
Proof.
  unfold masked_sum, agree_row. intros Hr Hr' Hag.
  induction Hag as [|m v v' mrow row row' Hv _ IH]; [reflexivity|].
  apply Forall_cons in Hr as [Hlen Hr1].
  apply Forall_cons in Hr' as [Hlen' Hr1'].
  simpl. rewrite (IH Hr1 Hr1'). f_equal.
  destruct (Z.eq_dec m 0%Z) as [->|Hm].
  - now rewrite (scale_zero h v Hlen), (scale_zero h v' Hlen').
  - now rewrite (Hv Hm).
Qed.

(** What the model puts at a masked position does not matter: two model
    outputs of one size that agree wherever the mask is not zero are
    pooled to the same vectors. *)
Theorem mean_pooling_ignores_masked :
  forall (model_output model_output' : ModelOutput) (mask : tensor2 Z),
    wf3 (getitem0 model_output) -> wf3 (getitem0 model_output') ->
    wf2 mask ->
    size2 mask = fst (size3 (getitem0 model_output)) ->
    size3 (getitem0 model_output') = size3 (getitem0 model_output) ->
    agree_on mask (getitem0 model_output) (getitem0 model_output') ->
    mean_pooling model_output' mask = mean_pooling model_output mask.
Proof.
  intros mo mo' mask H3 H3' H2 Hsz Hsame Hag.
  rewrite (mean_pooling_spec mo mask H3 H2 Hsz).
  rewrite (mean_pooling_spec mo' mask H3' H2) by now rewrite Hsame.
  f_equal. unfold spec_mean_pooling. rewrite Hsame.
  apply wf3_shape in H3, H3'. rewrite Hsame in H3'.
  destruct H3 as [_ Hr], H3' as [_ Hr'].
  set (h := snd (size3 (getitem0 mo))) in *.
  set (s := snd (fst (size3 (getitem0 mo)))) in *.
  set (tok := getitem0 mo) in *. set (tok' := getitem0 mo') in *.
  clearbody h s tok tok'. clear H2 Hsz Hsame. unfold agree_on in Hag.
  induction Hag as [|mrow row row' mask tok tok' Hrow _ IH]; [reflexivity|].
  apply Forall_cons in Hr as [[_ Hv] Hr1].
  apply Forall_cons in Hr' as [[_ Hv'] Hr1'].
  simpl. rewrite (IH Hr1 Hr1'). f_equal.
  unfold masked_mean. now rewrite (masked_sum_agree h mrow row row' Hv Hv').
Qed.

(** *** Padding *)

Lemma shape3_is_wf {A} (b s h : nat) (t : tensor3 A) :
  shape3 b s h t -> wf3 t.
Proof.
  intros [_ Hrows]. unfold wf3, size3.
  destruct t as [|[|v row] t]; simpl.
  - constructor.
  - apply Forall_cons in Hrows as [[Hs _] Hrows]. simpl in Hs. subst s.
    constructor; [split; [reflexivity | constructor]|].
    eapply Forall_impl; [exact Hrows|]. intros row [Hlen _]. split; [exact Hlen|].
    destruct row; [constructor | discriminate].
  - apply Forall_cons in Hrows as [[Hs Hv] Hrows].
    pose proof Hv as Hv0. apply Forall_cons in Hv0 as [Hh _]. subst s h.
    constructor; [split; [reflexivity | exact Hv] | exact Hrows].
Qed.

Lemma shape2_is_wf {A} (b s : nat) (t : tensor2 A) : shape2 b s t -> wf2 t.
Proof.
  intros [_ Hrows]. unfold wf2, size2. destruct t as [|row t]; simpl.
  - constructor.
  - apply Forall_cons in Hrows as [Hs Hrows]. subst s.
    constructor; [reflexivity | exact Hrows].
Qed.

Lemma shapes_fit {A B} (b s h : nat) (t : tensor3 A) (mask : tensor2 B) :
  shape3 b s h t -> shape2 b s mask -> size2 mask = fst (size3 t).
Proof.
  intros [Hb Hrows] [Hb' Hrows']. unfold size2, size3. simpl.
  destruct t as [|row t], mask as [|mrow mask]; simpl in *; try lia;
    [reflexivity|].
  apply Forall_cons in Hrows as [[Hs _] _].
  apply Forall_cons in Hrows' as [Hs' _]. congruence.
Qed.

Lemma pad_tokens_shape (b s p h : nat) (tok pads : tensor3 R) :
  shape3 b s h tok -> shape3 b p h pads ->
  shape3 b (s + p) h (pad_tokens tok pads).
Proof.
  intros [Hb Hrows] [Hb' Hpads]. unfold pad_tokens. split.
  - rewrite length_zip_with. lia.
  - clear Hb Hb'. revert pads Hpads.
    induction Hrows as [|row tok [Hs Hv] _ IH]; intros pads Hpads;
      destruct Hpads as [|pad pads [Hp Hpv] Hpads]; simpl; constructor.
    + split; [rewrite length_app; lia | now apply Forall_app].
    + now apply IH.
Qed.

Lemma pad_mask_shape (b s p : nat) (mask : tensor2 Z) :
  shape2 b s mask -> shape2 b (s + p) (pad_mask p mask).
Proof.
  intros [Hb Hrows]. unfold pad_mask. split.
  - now rewrite length_map.
  - clear Hb. induction Hrows as [|mrow mask Hs _ IH]; simpl; constructor;
      [|exact IH].
    rewrite length_app, length_replicate. lia.
Qed.

Lemma pad_tokens_hidden (b s p h : nat) (tok pads : tensor3 R) :
  size3 tok = (b, s, h) -> shape3 b s h tok -> shape3 b p h pads ->
  snd (size3 (pad_tokens tok pads)) = h.
Proof.
  intros Hsz [Hb Hrows] [Hb' Hpads]. unfold size3, pad_tokens in *.
  injection Hsz as H1 H2 H3.
  destruct tok as [|[|v row] tok], pads as [|pad pads]; simpl in *;
    try lia.
  apply Forall_cons in Hpads as [[_ Hpv] _].
  destruct pad as [|pv pad]; simpl; [lia|].
  apply Forall_cons in Hpv as [Hpv _]. lia.
Qed.

Lemma mask_count_app (m1 m2 : list Z) :
  mask_count (m1 ++ m2) = mask_count m1 + mask_count m2.
Proof.
  unfold mask_count, sum_list. induction m1 as [|m m1 IH]; simpl; [lra|].
  rewrite IH. lra.
Qed.

Lemma mask_count_zeros (p : nat) : mask_count (replicate p 0%Z) = 0.
Proof. apply mask_count_zero, Forall_replicate. reflexivity. Qed.

Lemma masked_mean_pad (h p : nat) (tokens pad : list (list R)) (mrow : list Z) :
  length mrow = length tokens ->
  Forall (fun v => length v = h) pad ->
  masked_mean h (tokens ++ pad) (mrow ++ replicate p 0%Z)
  = masked_mean h tokens mrow.
Proof.
  intros Hlen Hpad. unfold masked_mean.
  rewrite mask_count_app, mask_count_zeros, Rplus_0_r. f_equal.
  unfold masked_sum. rewrite zip_with_app by exact Hlen.
  rewrite foldr_app. f_equal.
  apply (masked_sum_zero_mask h pad (replicate p 0%Z) Hpad).
  apply Forall_replicate. reflexivity.
Qed.

(** The pooled vectors do not depend on the padded length: [p] more
    tokens behind every row, whatever their embeddings, with mask zero,
    leave the result of [mean_pooling] as it is. *)
Theorem mean_pooling_padding_invariant :
  forall (model_output model_output' : ModelOutput) (mask : tensor2 Z)
         (pads : tensor3 R) (b s h p : nat),
    wf3 (getitem0 model_output) -> wf2 mask ->
    size2 mask = fst (size3 (getitem0 model_output)) ->
    size3 (getitem0 model_output) = (b, s, h) ->
    shape3 b p h pads ->
    getitem0 model_output' = pad_tokens (getitem0 model_output) pads ->
    mean_pooling model_output' (pad_mask p mask)
    = mean_pooling model_output mask.
Proof.
  intros mo mo' mask pads b s h p H3 H2 Hsz Hsize Hpads Hmo'.
  destruct (wf_shapes b s h _ _ H3 H2 Hsz Hsize) as [Ht Hm].
  pose proof (pad_tokens_shape b s p h _ _ Ht Hpads) as Ht'.
  pose proof (pad_mask_shape b s p _ Hm) as Hm'.
  rewrite (mean_pooling_spec mo mask H3 H2 Hsz).
  rewrite (mean_pooling_spec mo' (pad_mask p mask)).
  - f_equal. unfold spec_mean_pooling. rewrite Hmo'.
    rewrite (pad_tokens_hidden b s p h _ _ Hsize Ht Hpads), Hsize. simpl.
    destruct Ht as [Hb Hrows], Hm as [Hb' Hmrows], Hpads as [Hb'' Hprows].
    set (tok := getitem0 mo) in *. clearbody tok.
    clear -Hb Hb' Hb'' Hrows Hmrows Hprows.
    unfold pad_tokens, pad_mask.
    revert b mask pads Hb Hb' Hb'' Hmrows Hprows.
    induction Hrows as [|row tok [Hs Hv] _ IH];
      intros b [|mrow mask] [|pad pads] Hb Hb' Hb'' Hmrows Hprows;
      simpl in *; try lia; [reflexivity|].
    apply Forall_cons in Hmrows as [Hms Hmrows].
    apply Forall_cons in Hprows as [[_ Hpv] Hprows].
    f_equal.
    + apply masked_mean_pad; [congruence | exact Hpv].
    + apply (IH (length tok)); auto; lia.
  - rewrite Hmo'. exact (shape3_is_wf _ _ _ _ Ht').
  - exact (shape2_is_wf _ _ _ Hm').
  - rewrite Hmo'. exact (shapes_fit _ _ _ _ _ Ht' Hm').
Qed.

Lemma mean_pooling_ignores_masked_witness :
  mean_pooling demo_output_masked (attention_mask demo_encoding)
  = mean_pooling demo_output (attention_mask demo_encoding).
Proof.
  destruct demo_shapes as (H3 & H2 & Hs).
  apply (mean_pooling_ignores_masked demo_output demo_output_masked
           (attention_mask demo_encoding) H3); try assumption.
  - unfold wf3. simpl. repeat constructor.
  - reflexivity.
  - unfold agree_on, agree_row. simpl.
    repeat constructor; intros H; try reflexivity; now destruct H.
Defined.

Lemma mean_pooling_padding_invariant_witness :
  mean_pooling demo_output_padded (pad_mask 1 (attention_mask demo_encoding))
  = mean_pooling demo_output (attention_mask demo_encoding).
Proof.
  destruct demo_shapes as (H3 & H2 & Hs).
  apply (mean_pooling_padding_invariant demo_output demo_output_padded
           (attention_mask demo_encoding) demo_pads 2 3 2 1 H3 H2 Hs
           eq_refl); [|reflexivity].
  unfold shape3. simpl. repeat constructor.
Defined.

(** *** Masks of zeros and ones *)

Lemma scale_one (v : list R) : scale 1 v = v.
Proof.
  unfold scale. induction v as [|x v IH]; simpl; [reflexivity|].
  f_equal; [lra | exact IH].
Qed.

Lemma vadd_zeros_l (h : nat) (v : list R) :
  length v = h -> vadd (replicate h 0) v = v.
Proof.
  intros <-. unfold vadd. induction v as [|x v IH]; simpl; [reflexivity|].
  f_equal; [lra | exact IH].
Qed.

Lemma masked_sum_attended (h : nat) (tokens : list (list R)) (mrow : list Z) :
  Forall (fun v => length v = h) tokens ->
  Forall (fun m => m = 0%Z \/ m = 1%Z) mrow ->
  masked_sum h tokens mrow = vsum h (attended tokens mrow).
Proof.
  intros Hh. revert mrow.
  induction Hh as [|v tokens Hv Hh IH]; intros mrow Hm.
  - unfold masked_sum. destruct mrow; reflexivity.
  - destruct Hm as [|m mrow Hm0 Hm]; [reflexivity|].
    specialize (IH mrow Hm). unfold masked_sum in *. simpl.
    rewrite IH. destruct Hm0 as [-> | ->]; simpl.
    + rewrite (scale_zero h v Hv). apply vadd_zeros_l.
      unfold vsum. apply length_foldr_vadd.
      clear -Hh. revert mrow.
      induction Hh as [|u tokens Hu _ IH]; intros [|m mrow]; simpl;
        try constructor.
      destruct (Z.eqb m 1); [constructor; [exact Hu | apply IH] | apply IH].
    + now rewrite scale_one.
Qed.

Lemma mask_count_attended (tokens : list (list R)) (mrow : list Z) :
  Forall (fun m => m = 0%Z \/ m = 1%Z) mrow ->
  length mrow = length tokens ->
  mask_count mrow = INR (length (attended tokens mrow)).
Proof.
  intros Hm. revert tokens.
  induction Hm as [|m mrow Hm0 _ IH]; intros [|v tokens] Hlen;
    try discriminate; [reflexivity|].
  injection Hlen as Hlen. specialize (IH tokens Hlen).
  unfold mask_count, sum_list in *. cbn [map foldr attended].
  rewrite IH. destruct Hm0 as [-> | ->]; cbn [Z.eqb Pos.eqb length].
  - lra.
  - rewrite S_INR. lra.
Qed.

(** With a mask of zeros and ones that attends to at least one token of a
    row, the floor of the divisor is not reached: the pooled row is the
    arithmetic mean of the attended token vectors. *)
Theorem mean_pooling_is_mean_of_attended :
  forall (model_output : ModelOutput) (mask : tensor2 Z)
         (i : nat) (row : list (list R)) (mrow : list Z),
    wf3 (getitem0 model_output) -> wf2 mask ->
    size2 mask = fst (size3 (getitem0 model_output)) ->
    getitem0 model_output !! i = Some row ->
    mask !! i = Some mrow ->
    Forall (fun m => m = 0%Z \/ m = 1%Z) mrow ->
    attended row mrow <> [] ->
    let h := snd (size3 (getitem0 model_output)) in
    exists pooled : tensor2 R,
      mean_pooling model_output mask = Ok pooled /\
      pooled !! i
      = Some (map (fun x => x / INR (length (attended row mrow)))
                  (vsum h (attended row mrow))).
Proof.
  intros mo mask i row mrow H3 H2 Hsz Hrow Hmrow H01 Hne h.
  exists (spec_mean_pooling (getitem0 mo) mask).
  split; [now apply mean_pooling_spec|].
  destruct (wf3_shape _ H3) as [_ Ht]. destruct (wf2_shape _ H2) as [_ Hm].
  rewrite Hsz in Hm. fold h in Ht.
  unfold spec_mean_pooling. fold h.
  rewrite lookup_zip_with, Hrow, Hmrow. simpl. f_equal.
  rewrite Forall_lookup in Ht. destruct (Ht i row Hrow) as [Hs Hv].
  rewrite Forall_lookup in Hm. pose proof (Hm i mrow Hmrow) as Hms.
  unfold masked_mean.
  rewrite (masked_sum_attended h row mrow Hv H01).
  rewrite (mask_count_attended row mrow H01) by congruence.
  rewrite Rmax_left; [reflexivity|].
  assert (1 <= INR (length (attended row mrow))).
  { destruct (attended row mrow) as [|a l]; [congruence|].
    cbn [length]. rewrite S_INR. pose proof (pos_INR (length l)). lra. }
  unfold pool_floor. lra.
Qed.

Lemma mean_pooling_is_mean_of_attended_witness :
  exists pooled : tensor2 R,
    mean_pooling demo_output (attention_mask demo_encoding) = Ok pooled /\
    pooled !! 0%nat
    = Some (map (fun x => x / INR 2) (vsum 2 [[3; 0]; [3; 8]])).
Proof.
  destruct demo_shapes as (H3 & H2 & Hs).
  apply (mean_pooling_is_mean_of_attended demo_output
           (attention_mask demo_encoding) 0 [[3; 0]; [3; 8]; [9; 9]]
           [1; 1; 0]%Z H3 H2 Hs eq_refl eq_refl).
  - constructor; [now right|]. constructor; [now right|].
    constructor; [now left | constructor].
  - discriminate.
Defined.

(** *** Sizes that do not fit *)

Lemma mapM_elem_Except {A B} (f : A -> result B) (l : list A) (x : A)
      (e : pyexn) :
  (forall y e', f y = Except e' -> e' = e) ->
  x ∈ l -> f x = Except e -> mapM f l = Except e.
Proof.
  intros Hall Hin Hx.
  induction Hin as [x l | x y l Hin IH]; simpl.
  - now rewrite Hx.
  - destruct (f y) as [b|e'] eqn:Hy; simpl.
    + now rewrite IH.
    + now rewrite (Hall y e' Hy).
Qed.

Lemma mapM_Except_inv {A B} (f : A -> result B) (l : list A) (e : pyexn) :
  mapM f l = Except e -> exists x, x ∈ l /\ f x = Except e.
Proof.
  induction l as [|x l IH]; simpl; [discriminate|].
  destruct (f x) as [y|e'] eqn:Hx; simpl.
  - destruct (mapM f l) as [ys|e'']; simpl; [discriminate|].
    intros [= ->]. destruct (IH eq_refl) as (x' & Hin & Hx').
    exists x'. split; [now apply list_elem_of_further | exact Hx'].
  - intros [= ->]. exists x. split; [apply list_elem_of_here | exact Hx].
Qed.

Lemma mapM_Ok {A} (l : list A) : mapM Ok l = Ok l.
Proof. induction l as [|x l IH]; simpl; [reflexivity | now rewrite IH]. Qed.

Lemma expand_hidden_error {A} (h : nat) (v : list A) (e : pyexn) :
  expand_axis h Ok v = Except e ->
  e = RuntimeError "expand: sizes do not match".
Proof.
  unfold expand_axis. destruct (Nat.eqb (length v) h).
  - now rewrite mapM_Ok.
  - destruct v as [|x [|y v]]; simpl; [now intros [= <-] | discriminate |].
    now intros [= <-].
Qed.

Lemma expand_row_error {A} (s h : nat) (row : list (list A)) (e : pyexn) :
  expand_axis s (expand_axis h Ok) row = Except e ->
  e = RuntimeError "expand: sizes do not match".
Proof.
  unfold expand_axis at 1. destruct (Nat.eqb (length row) s).
  - intros H. apply mapM_Except_inv in H as (v & _ & Hv).
    exact (expand_hidden_error h v e Hv).
  - destruct row as [|v [|v' row]]; simpl; [now intros [= <-] | |].
    + destruct (expand_axis h Ok v) as [y|e'] eqn:Hv; simpl; [discriminate|].
      intros [= <-]. exact (expand_hidden_error h v e' Hv).
    + now intros [= <-].
Qed.

Lemma expand_row_bad {A} (s h : nat) (mrow : list A) :
  length mrow <> s -> length mrow <> 1%nat ->
  expand_axis s (expand_axis h Ok) (map (fun x => [x]) mrow)
  = Except (RuntimeError "expand: sizes do not match").
Proof.
  intros Hs H1. unfold expand_axis at 1. rewrite length_map.
  apply Nat.eqb_neq in Hs. rewrite Hs.
  destruct mrow as [|m [|m' mrow]]; simpl in *; congruence.
Qed.

(** A mask whose number of rows is neither that of the token embeddings
    nor 1, or one of whose rows has a number of tokens that is neither
    that of the token embeddings nor 1, makes [mean_pooling] raise:
    nothing is pooled over a part of the tokens. *)
Theorem mean_pooling_size_error :
  forall (model_output : ModelOutput) (mask : tensor2 Z) (b s h : nat),
    size3 (getitem0 model_output) = (b, s, h) ->
    (length mask <> b /\ length mask <> 1%nat) \/
    (exists mrow, mrow ∈ mask /\
                  length mrow <> s /\ length mrow <> 1%nat) ->
    mean_pooling model_output mask
    = Except (RuntimeError "expand: sizes do not match").
Proof.
  intros mo mask b s h Hsize Hbad. unfold mean_pooling. rewrite Hsize.
  assert (Hx : expand (b, s, h) (unsqueeze_last mask)
               = Except (RuntimeError "expand: sizes do not match")).
  { unfold expand, unsqueeze_last. unfold expand_axis at 1.
    rewrite length_map.
    destruct (Nat.eqb (length mask) b) eqn:Hb.
    - destruct Hbad as [[Hb' _] | (mrow & Hin & Hs & H1)].
      + apply Nat.eqb_eq in Hb. contradiction.
      + apply (mapM_elem_Except _ _ (map (fun x => [x]) mrow)).
        * intros y e' Hy. exact (expand_row_error s h y e' Hy).
        * now apply list_elem_of_fmap_2.
        * now apply expand_row_bad.
    - destruct mask as [|r [|r' mask]]; simpl in *.
      + reflexivity.
      + destruct Hbad as [[_ H1] | (mrow & Hin & Hs & H1)]; [congruence|].
        apply list_elem_of_singleton in Hin as ->.
        now rewrite expand_row_bad.
      + reflexivity. }
  now rewrite Hx.
Qed.

Lemma mean_pooling_size_error_witness :
  mean_pooling demo_output [[1; 1]]%Z
  = Except (RuntimeError "expand: sizes do not match").
Proof.
  apply (mean_pooling_size_error demo_output _ 2 3 2 eq_refl).
  right. exists [1; 1]%Z. split; [apply list_elem_of_here|].
  split; discriminate.
Defined.

(** *** [__init__] *)

(** Loading failures are not caught, and nothing is loaded after one: when
    the tokenizer cannot be loaded [__init__] raises in the world that
    attempt left, so the model is not loaded; when the model cannot be
    loaded, or not moved to the configured device, [__init__] raises too,
    and no miner is returned. *)
Theorem init_loading_failures_propagate :
  forall (lib : Lib) (super_init : M Config) (config : Config)
         (e : pyexn) (w w1 : world),
    super_init w = (Ok config, w1) ->
    (forall w2,
        AutoTokenizer_from_pretrained lib (bert_model_name config) w1
        = (Except e, w2) ->
        __init__ lib super_init w = (Except e, w2)) /\
    (forall tok w2 w3,
        AutoTokenizer_from_pretrained lib (bert_model_name config) w1
        = (Ok tok, w2) ->
        AutoModel_from_pretrained lib (bert_model_name config) w2
        = (Except e, w3) ->
        __init__ lib super_init w = (Except e, w3)) /\
    (forall tok m w2 w3,
        AutoTokenizer_from_pretrained lib (bert_model_name config) w1
        = (Ok tok, w2) ->
        AutoModel_from_pretrained lib (bert_model_name config) w2
        = (Ok m, w3) ->
        device lib (bert_device config) = Some e ->
        __init__ lib super_init w = (Except e, w3)).
Proof.
  intros lib super_init config e w w1 Hsuper.
  unfold __init__, mbind, M_bind, bindM. rewrite Hsuper.
  split; [|split].
  - intros w2 ->. reflexivity.
  - intros tok w2 w3 -> ->. reflexivity.
  - intros tok m w2 w3 -> -> ->. reflexivity.
Qed.

Lemma init_loading_failures_propagate_witness :
  __init__ offline_lib (mret (config demo_miner)) Bloom.w0
  = (Except (OSError "Can't load the model"), Bloom.w0).
Proof.
  destruct (init_loading_failures_propagate offline_lib
              (mret (config demo_miner)) (config demo_miner)
              (OSError "Can't load the model") Bloom.w0 Bloom.w0 eq_refl)
    as (_ & Hmodel & _).
  apply (Hmodel (tokenizer demo_miner) Bloom.w0 Bloom.w0); reflexivity.
Defined.

End BertMore.

(* ===================================================================== *)
(** ** Further results: the chat miner *)
(* ===================================================================== *)

Section BloomMore.
Import Bloom.
Local Open Scope string_scope.

(** *** [_process_history] on any list of dicts *)

Lemma result_bind_Ok {A B} (a : A) (k : A -> result B) :
  (Ok a ≫= k) = k a.
Proof. reflexivity. Qed.

Lemma process_message_acc (acc : string) (d : gmap string string) :
  process_message acc d
  = (line ← process_message "" d; Ok (acc +:+ line)).
Proof.
  unfold process_message, getitem.
  destruct (d !! "role") as [role|]; [|reflexivity].
  cbn [mbind result_bind Py.bind].
  destruct (d !! "content") as [content|];
    destruct (String.eqb role "system"),
             (String.eqb role "assistant"),
             (String.eqb role "user");
    cbn [mbind result_bind Py.bind]; rewrite ?app_nil_l, ?app_nil_r, ?app_assoc;
    reflexivity.
Qed.

Lemma process_loop_acc (acc : string) (history : list (gmap string string)) :
  process_loop acc history
  = (s ← process_loop "" history; Ok (acc +:+ s)).
Proof.
  revert acc. induction history as [|d history IH]; intros acc; simpl.
  - now rewrite app_nil_r.
  - rewrite (process_message_acc acc d).
    destruct (process_message "" d) as [line|e]; [|reflexivity].
    cbn [mbind result_bind Py.bind].
    rewrite (IH (acc +:+ line)), (IH line).
    destruct (process_loop "" history) as [s|e]; [|reflexivity].
    cbn [mbind result_bind Py.bind]. now rewrite app_assoc.
Qed.

Lemma process_loop_app (acc : string) (h1 h2 : list (gmap string string)) :
  process_loop acc (h1 ++ h2)
  = (s ← process_loop acc h1; process_loop s h2).
Proof.
  revert acc. induction h1 as [|d h1 IH]; intros acc; simpl; [reflexivity|].
  destruct (process_message acc d) as [acc'|e]; [|reflexivity].
  cbn [mbind result_bind Py.bind]. apply IH.
Qed.

Lemma process_history_concat (h1 h2 : list (gmap string string)) :
  _process_history (h1 ++ h2)
  = (s1 ← _process_history h1; s2 ← _process_history h2; Ok (s1 +:+ s2)).
Proof.
  unfold _process_history. rewrite process_loop_app.
  destruct (process_loop "" h1) as [s1|e]; [|reflexivity].
  cbn [mbind result_bind Py.bind]. apply process_loop_acc.
Qed.

(** The transcript of a concatenation is the concatenation of the
    transcripts: the accumulated string never changes what a later message
    contributes.  The first message that raises decides the exception. *)
Theorem process_history_app :
  forall (h1 h2 : list (gmap string string)) (s1 s2 : string) (e : pyexn),
    (_process_history h1 = Ok s1 -> _process_history h2 = Ok s2 ->
     _process_history (h1 ++ h2) = Ok (s1 +:+ s2)) /\
    (_process_history h1 = Except e ->
     _process_history (h1 ++ h2) = Except e) /\
    (_process_history h1 = Ok s1 -> _process_history h2 = Except e ->
     _process_history (h1 ++ h2) = Except e).
Proof.
  intros h1 h2 s1 s2 e. rewrite process_history_concat.
  split; [|split].
  - now intros -> ->.
  - now intros ->.
  - now intros -> ->.
Qed.

Lemma process_history_app_witness :
  _process_history ([hello] ++ [hello])
  = Ok (("<human>: hello" +:+ nl) +:+ ("<human>: hello" +:+ nl)) /\
  _process_history ([no_role] ++ [hello]) = Except (KeyError "role").
Proof.
  split.
  - destruct (process_history_app [hello] [hello] ("<human>: hello" +:+ nl)
                ("<human>: hello" +:+ nl) IndexError) as (Hok & _ & _).
    apply Hok; reflexivity.
  - destruct (process_history_app [no_role] [hello] "" "" (KeyError "role"))
      as (_ & Hfirst & _).
    apply Hfirst. reflexivity.
Defined.

Lemma process_history_one (d : gmap string string) :
  _process_history [d] = process_message "" d.
Proof.
  unfold _process_history. simpl.
  destruct (process_message "" d); reflexivity.
Qed.

Lemma process_history_cons (d : gmap string string)
      (h : list (gmap string string)) :
  _process_history (d :: h)
  = (s1 ← process_message "" d; s2 ← _process_history h; Ok (s1 +:+ s2)).
Proof.
  change (d :: h) with ([d] ++ h)%list.
  now rewrite process_history_concat, process_history_one.
Qed.

Lemma process_history_messages (history : list (gmap string string))
      (messages : list (string * string)) :
  Forall2 is_message history messages ->
  _process_history history = Ok (spec_transcript messages).
Proof.
  intros H. unfold _process_history. now rewrite (process_loop_spec "" _ _ H).
Qed.

(** A dict without the key [role], or of a recognized role without the key
    [content], behind messages that are well formed makes
    [_process_history] raise the [KeyError] of that key, whatever follows;
    [forward] then raises it before the clock is read or anything is
    called. *)
Theorem process_history_missing_key :
  forall (good rest : list (gmap string string)) (bad : gmap string string)
         (messages : list (string * string)) (key : string),
    Forall2 is_message good messages ->
    (key = "role" /\ bad !! "role" = None) \/
    (key = "content" /\ bad !! "content" = None /\
     exists role, bad !! "role" = Some role /\ recognized role = true) ->
    _process_history (good ++ bad :: rest) = Except (KeyError key) /\
    forall (lib : Lib) (self : BloomChatMiner) (w : world),
      forward lib self (good ++ bad :: rest) w = (Except (KeyError key), w).
Proof.
  intros good rest bad messages key Hgood Hbad.
  assert (H : _process_history (good ++ bad :: rest) = Except (KeyError key)).
  { rewrite process_history_concat, (process_history_messages _ _ Hgood).
    cbn [mbind result_bind Py.bind]. rewrite process_history_cons.
    replace (process_message "" bad) with (@Except string (KeyError key));
      [reflexivity|].
    unfold process_message, getitem.
    destruct Hbad as [[-> Hr] | (-> & Hc & role & Hr & Hrec)]; rewrite Hr.
    - reflexivity.
    - rewrite Hc. cbn [mbind result_bind Py.bind]. unfold recognized in Hrec.
      destruct (String.eqb role "system"); [reflexivity|].
      destruct (String.eqb role "assistant"); [reflexivity|].
      destruct (String.eqb role "user"); [reflexivity | discriminate]. }
  split; [exact H|]. intros lib self w. unfold forward. now rewrite H.
Qed.

Lemma process_history_missing_key_witness :
  _process_history [hello; no_role; hello] = Except (KeyError "role") /\
  _process_history [hello; no_content] = Except (KeyError "content").
Proof.
  assert (Hgood : Forall2 is_message [hello] [("user", "hello")])
    by (repeat constructor).
  split.
  - apply (process_history_missing_key [hello] [hello] no_role _ "role" Hgood).
    left. split; reflexivity.
  - apply (process_history_missing_key [hello] [] no_content _ "content" Hgood).
    right. split; [reflexivity|]. split; [reflexivity|].
    exists "user". split; reflexivity.
Defined.

Lemma process_message_unrecognized (d : gmap string string) (role : string) :
  d !! "role" = Some role -> recognized role = false ->
  process_message "" d = Ok "".
Proof.
  intros Hr Hrec. unfold process_message, getitem. rewrite Hr.
  cbn [mbind result_bind Py.bind]. unfold recognized in Hrec.
  destruct (String.eqb role "system"); [discriminate|].
  destruct (String.eqb role "assistant"); [discriminate|].
  destruct (String.eqb role "user"); [discriminate|]. reflexivity.
Qed.

(** A dict of a role other than [system], [assistant] and [user] is passed
    over, with or without a content: the transcript is the one of the list
    without it. *)
Theorem process_history_skips_unrecognized :
  forall (h1 h2 : list (gmap string string)) (d : gmap string string)
         (role : string),
    d !! "role" = Some role -> recognized role = false ->
    _process_history (h1 ++ d :: h2) = _process_history (h1 ++ h2).
Proof.
  intros h1 h2 d role Hr Hrec.
  rewrite !process_history_concat, process_history_cons.
  rewrite (process_message_unrecognized d role Hr Hrec).
  destruct (_process_history h1) as [s1|e]; [|reflexivity].
  cbn [mbind result_bind Py.bind].
  destruct (_process_history h2) as [s2|e]; reflexivity.
Qed.

Lemma process_history_skips_unrecognized_witness :
  _process_history [hello; tool_call; hello] = _process_history [hello; hello].
Proof.
  apply (process_history_skips_unrecognized [hello] [hello] tool_call "tool");
    reflexivity.
Defined.

Lemma transcript_line_empty (role content : string) :
  transcript_line role content = "" <-> recognized role = false.
Proof.
  unfold transcript_line, recognized.
  destruct (String.eqb role "system"), (String.eqb role "user"),
           (String.eqb role "assistant"); simpl; split;
    (reflexivity || discriminate).
Qed.

Lemma app_empty (a b : string) : a +:+ b = "" <-> a = "" /\ b = "".
Proof.
  destruct a; [rewrite app_nil_l; tauto|]. rewrite app_cons.
  split; [discriminate | intros [? _]; discriminate].
Qed.

(** The transcript is the empty string exactly when no message has a
    recognized role: only then [forward] prompts the model with
    nothing. *)
Theorem process_history_empty_iff :
  forall (history : list (gmap string string))
         (messages : list (string * string)),
    Forall2 is_message history messages ->
    (_process_history history = Ok ""
     <-> Forall (fun m => recognized m.1 = false) messages).
Proof.
  intros history messages H. rewrite (process_history_messages _ _ H).
  clear H history. induction messages as [|[role content] messages IH]; simpl.
  - split; [constructor | reflexivity].
  - split.
    + intros [= Heq]. apply app_empty in Heq as [Hl Hrest].
      constructor; [now apply transcript_line_empty in Hl|].
      apply IH. now rewrite Hrest.
    + intros Hall. apply Forall_cons in Hall as [Hr Hall]. simpl in Hr.
      apply (transcript_line_empty role content) in Hr. rewrite Hr.
      apply IH in Hall. injection Hall as ->. reflexivity.
Qed.

Lemma process_history_empty_iff_witness :
  _process_history [hello] <> Ok "".
Proof.
  assert (H : Forall2 is_message [hello] [("user", "hello")])
    by (repeat constructor).
  intros Hempty. apply (process_history_empty_iff _ _ H) in Hempty.
  apply Forall_cons in Hempty as [Hr _]. discriminate.
Defined.

(** *** What [forward] returns and prints *)

Lemma interleave_empty (s : string) : interleave "" s = s.
Proof.
  induction s as [|c s IH]; simpl; [reflexivity|].
  now rewrite app_nil_l, IH.
Qed.

Lemma replace_from_subseq (old : string) (skip : nat) (s : string) :
  subseq (replace_from old "" skip s) s.
Proof.
  unfold subseq. revert skip.
  induction s as [|c s IH]; intros skip; [constructor|].
  cbn [replace_from list_ascii_of_string]. destruct skip as [|k].
  - destruct (startswith old (String c s)).
    + rewrite app_nil_l. apply sublist_cons, IH.
    + cbn [list_ascii_of_string]. apply sublist_skip, IH.
  - apply sublist_cons, IH.
Qed.

Lemma replace_subseq (s old : string) : subseq (replace s old "") s.
Proof.
  unfold replace. destruct old as [|c old].
  - rewrite interleave_empty. unfold subseq. reflexivity.
  - apply replace_from_subseq.
Qed.

Lemma replace_copies (n : nat) (old rest : string) :
  old <> "" ->
  replace (copies n old +:+ rest) old "" = replace rest old "".
Proof.
  intros Hne. induction n as [|n IH]; simpl; [now rewrite app_nil_l|].
  now rewrite app_assoc, (replace_front _ _ _ Hne), app_nil_l.
Qed.

Lemma split_last (sep : ascii) (s : string) :
  match split sep s with
  | [] => False
  | [seg] => s = seg
  | segs => exists pre seg,
      last segs = Some seg /\ s = pre +:+ String sep seg
  end.
Proof.
  induction s as [|c s IH]; simpl; [reflexivity|].
  destruct (Ascii.eqb_spec c sep) as [->|Hne].
  - destruct (split sep s) as [|x [|y l]]; [contradiction| |].
    + subst s. now exists "", x.
    + destruct IH as (pre & seg & Hlast & ->).
      exists (String sep pre), seg. split; [|reflexivity].
      now rewrite last_cons_cons.
  - destruct (split sep s) as [|x [|y l]]; [contradiction| |].
    + now subst s.
    + destruct IH as (pre & seg & Hlast & ->).
      exists (String c pre), seg. split; [|reflexivity].
      rewrite last_cons_cons in *. exact Hlast.
Qed.

Lemma getitem_last_split_suffix (sep : ascii) (s seg : string) :
  getitem_last (split sep s) = Ok seg ->
  s = seg \/ exists pre, s = pre +:+ String sep seg.
Proof.
  unfold getitem_last. pose proof (split_last sep s) as H.
  destruct (split sep s) as [|x [|y l]]; [contradiction| |].
  - simpl. intros [= <-]. now left.
  - destruct H as (pre & seg' & Hlast & ->). rewrite Hlast.
    intros [= <-]. right. now exists pre.
Qed.

Lemma replace_segment (history segment : string)
      (messages : list (gmap string string)) :
  _process_history messages = Ok history ->
  ~ has_char colon segment ->
  replace segment history "" = segment.
Proof.
  intros Hh Hno. destruct (String.eqb_spec history "") as [->|Hne].
  - apply interleave_empty.
  - apply replace_absent; [exact Hne|]. intros Hocc. apply Hno.
    apply (occurs_has_char colon history); [exact Hocc|].
    now apply (process_history_colon history messages).
Qed.

Lemma forward_deepspeed_run (lib : Lib) (self : BloomChatMiner)
      (messages : list (gmap string string)) (history decoded : string)
      (tok : Tokenizer) (encoded inputs others : list (list Z))
      (output : list Z) (rank : Z) (engine : DeepSpeedEngine)
      (w w2 w3 w4 w5 : world) :
    _process_history messages = Ok history ->
    deployment_framework (config self) = "deepspeed" ->
    attrs self !! "tokenizer" = Some (VTokenizer tok) ->
    encode tok history (tick w) = (Ok encoded, w2) ->
    attrs self !! "local_rank" = Some (VInt rank) ->
    tensor_to lib encoded rank w2 = (Ok inputs, w3) ->
    attrs self !! "ds_engine" = Some (VEngine engine) ->
    generate (module engine) inputs 60 w3 = (Ok (output :: others), w4) ->
    decode tok output w4 = (Ok decoded, w5) ->
    forward lib self messages w
    = (Ok (replace decoded history ""),
       after_prints w w5 (replace decoded history "")).
Proof.
  intros Hh Hd Htok Henc Hrank Hto Heng Hgen Hdec.
  unfold forward. rewrite Hh, Hd. simpl.
  unfold mbind, M_bind, bindM, lift, getattr. simpl.
  rewrite Htok. simpl. unfold tick in Henc. simpl in Henc.
  rewrite Henc, Hrank. simpl. rewrite Hto, Heng. simpl. rewrite Hgen.
  simpl. rewrite Hdec. unfold after_prints, mret, M_ret, ret. simpl.
  now rewrite <- List.app_assoc.
Qed.

Lemma forward_accelerate_run (lib : Lib) (self : BloomChatMiner)
      (messages : list (gmap string string))
      (history generated_text segment : string) (p : Pipeline)
      (tok : Tokenizer) (sequence : gmap string string)
      (others : list (gmap string string)) (w w2 : world) :
    _process_history messages = Ok history ->
    deployment_framework (config self) <> "deepspeed" ->
    attrs self !! "pipe" = Some (VPipeline p) ->
    attrs self !! "tokenizer" = Some (VTokenizer tok) ->
    call p history (forward_pipe_kwargs tok) (tick w)
    = (Ok (sequence :: others), w2) ->
    sequence !! "generated_text" = Some generated_text ->
    getitem_last (split colon generated_text) = Ok segment ->
    forward lib self messages w
    = (Ok (replace segment history ""),
       after_prints w w2 (replace segment history "")).
Proof.
  intros Hh Hd Hpipe Htok Hcall Htext Hseg.
  apply String.eqb_neq in Hd. unfold forward. rewrite Hh, Hd.
  unfold mbind, M_bind, bindM, lift, getattr, getitem. simpl.
  rewrite Hpipe, Htok. simpl. unfold tick, forward_pipe_kwargs in Hcall.
  simpl in Hcall. rewrite Hcall. simpl. rewrite Htext, Hseg.
  unfold after_prints, mret, M_ret, ret. simpl.
  now rewrite <- List.app_assoc.
Qed.

Lemma not_occurs_startswith (history s : string) :
  ~ occurs history s -> startswith history s = false.
Proof.
  intros Hno. destruct (startswith history s) eqn:Hsw; [|reflexivity].
  destruct Hno. now apply startswith_occurs.
Qed.

(** C4 (amended). Let the formatted transcript be non-empty.  In the
    deepspeed branch, when the calls of the run succeed, [forward] returns
    the decoding of the first sequence the model generated, with the
    occurrences of the transcript removed in one pass of [str.replace]
    from the left; when that decoded text is the transcript followed by a
    continuation in which the transcript does not occur, what [forward]
    returns is that continuation, and it does not start with the
    transcript.  In the accelerate branch [forward] returns the part of
    the first generated text behind its last colon (the whole text when
    it has none); that part holds no colon and so never starts with the
    transcript. *)
Theorem forward_strips_echo :
  forall (lib : Lib) (self : BloomChatMiner)
         (messages : list (gmap string string)) (history : string)
         (w : world),
    _process_history messages = Ok history ->
    history <> "" ->
    (forall (tok : Tokenizer) (encoded inputs others : list (list Z))
            (output : list Z) (rank : Z) (engine : DeepSpeedEngine)
            (decoded : string) (w2 w3 w4 w5 : world),
        deployment_framework (config self) = "deepspeed" ->
        attrs self !! "tokenizer" = Some (VTokenizer tok) ->
        encode tok history (tick w) = (Ok encoded, w2) ->
        attrs self !! "local_rank" = Some (VInt rank) ->
        tensor_to lib encoded rank w2 = (Ok inputs, w3) ->
        attrs self !! "ds_engine" = Some (VEngine engine) ->
        generate (module engine) inputs 60 w3 = (Ok (output :: others), w4) ->
        decode tok output w4 = (Ok decoded, w5) ->
        forward lib self messages w
        = (Ok (replace decoded history ""),
           after_prints w w5 (replace decoded history "")) /\
        forall rest : string,
          decoded = history +:+ rest -> ~ occurs history rest ->
          replace decoded history "" = rest /\
          startswith history rest = false) /\
    (forall (p : Pipeline) (tok : Tokenizer) (sequence : gmap string string)
            (others : list (gmap string string)) (generated_text : string)
            (w2 : world),
        deployment_framework (config self) <> "deepspeed" ->
        attrs self !! "pipe" = Some (VPipeline p) ->
        attrs self !! "tokenizer" = Some (VTokenizer tok) ->
        call p history (forward_pipe_kwargs tok) (tick w)
        = (Ok (sequence :: others), w2) ->
        sequence !! "generated_text" = Some generated_text ->
        exists resp : string,
          forward lib self messages w = (Ok resp, after_prints w w2 resp) /\
          (generated_text = resp \/
           exists pre, generated_text = pre +:+ String colon resp) /\
          ~ has_char colon resp /\
          startswith history resp = false).
Proof.
  intros lib self messages history w Hh Hne. split.
  - intros tok encoded inputs others output rank engine decoded w2 w3 w4 w5
           Hd Htok Henc Hrank Hto Heng Hgen Hdec.
    split.
    + exact (forward_deepspeed_run lib self messages history decoded tok
               encoded inputs others output rank engine w w2 w3 w4 w5
               Hh Hd Htok Henc Hrank Hto Heng Hgen Hdec).
    + intros rest -> Hno.
      rewrite (replace_front _ _ _ Hne), app_nil_l.
      rewrite (replace_absent _ _ _ Hne Hno).
      split; [reflexivity | now apply not_occurs_startswith].
  - intros p tok sequence others text w2 Hd Hpipe Htok Hcall Htext.
    destruct (getitem_last_split colon text) as (seg & Hseg & Hno).
    assert (Habs : ~ occurs history seg).
    { intros Hocc. apply Hno. apply (occurs_has_char colon history);
        [exact Hocc | exact (process_history_colon _ _ Hh Hne)]. }
    exists seg. split; [|split; [|split]].
    + pose proof (forward_accelerate_run lib self messages history text seg
                    p tok sequence others w w2 Hh Hd Hpipe Htok Hcall Htext
                    Hseg) as Hrun.
      now rewrite (replace_absent seg history "" Hne Habs) in Hrun.
    + now apply getitem_last_split_suffix.
    + exact Hno.
    + now apply not_occurs_startswith.
Qed.

Lemma forward_strips_echo_witness :
  forward demo_lib polite_miner [hello] w0
  = (Ok "<bot>: hi", after_prints w0 (tick w0) "<bot>: hi") /\
  startswith ("<human>: hello" +:+ nl) "<bot>: hi" = false /\
  exists resp : string,
    forward demo_lib chat_miner [hello] w0
    = (Ok resp, after_prints w0 (tick w0) resp) /\
    startswith ("<human>: hello" +:+ nl) resp = false.
Proof.
  destruct (forward_strips_echo demo_lib polite_miner [hello]
              ("<human>: hello" +:+ nl) w0 eq_refl hello_transcript_nonempty)
    as [Hds _].
  destruct (Hds polite_tokenizer [[1%Z]] [[1%Z]] [] [1%Z] 0%Z
              {| module := echo_model |}
              ("<human>: hello" +:+ nl +:+ "<bot>: hi")
              (tick w0) (tick w0) (tick w0) (tick w0)
              eq_refl eq_refl eq_refl eq_refl eq_refl eq_refl eq_refl eq_refl)
    as [Hfwd Hrest].
  destruct (Hrest "<bot>: hi" eq_refl transcript_not_in_reply) as [Hrep Hsw].
  rewrite Hrep in Hfwd.
  split; [exact Hfwd|]. split; [exact Hsw|].
  assert (Hd : deployment_framework (config chat_miner) <> "deepspeed")
    by discriminate.
  destruct (forward_strips_echo demo_lib chat_miner [hello]
              ("<human>: hello" +:+ nl) w0 eq_refl hello_transcript_nonempty)
    as [_ Hacc].
  destruct (Hacc chat_pipeline polite_tokenizer
              (<["generated_text" :=
                   "<human>: hello" +:+ nl +:+ "<bot>: hi"]> ∅) []
              ("<human>: hello" +:+ nl +:+ "<bot>: hi") (tick w0)
              Hd eq_refl eq_refl eq_refl eq_refl)
    as (resp & Hf & _ & _ & Hs).
  exists resp. split; assumption.
Defined.

(** In the deepspeed branch, when every call succeeds, [forward] decodes
    the first generated sequence only, returns the decoded text with the
    transcript replaced by nothing, and prints that reply and then the
    time elapsed from before the encoding to after the decoding. *)
Theorem forward_deepspeed_returns :
  forall (lib : Lib) (self : BloomChatMiner)
         (messages : list (gmap string string)) (history decoded : string)
         (tok : Tokenizer) (encoded inputs others : list (list Z))
         (output : list Z) (rank : Z) (engine : DeepSpeedEngine)
         (w w2 w3 w4 w5 : world),
    _process_history messages = Ok history ->
    deployment_framework (config self) = "deepspeed" ->
    attrs self !! "tokenizer" = Some (VTokenizer tok) ->
    encode tok history (tick w) = (Ok encoded, w2) ->
    attrs self !! "local_rank" = Some (VInt rank) ->
    tensor_to lib encoded rank w2 = (Ok inputs, w3) ->
    attrs self !! "ds_engine" = Some (VEngine engine) ->
    generate (module engine) inputs 60 w3 = (Ok (output :: others), w4) ->
    decode tok output w4 = (Ok decoded, w5) ->
    forward lib self messages w
    = (Ok (replace decoded history ""),
       after_prints w w5 (replace decoded history "")).
Proof. exact forward_deepspeed_run. Qed.

Lemma forward_deepspeed_returns_witness :
  forward demo_lib polite_miner [hello] w0
  = (Ok "<bot>: hi", after_prints w0 (tick w0) "<bot>: hi").
Proof.
  apply (forward_deepspeed_returns demo_lib polite_miner [hello]
           ("<human>: hello" +:+ nl) ("<human>: hello" +:+ nl +:+ "<bot>: hi")
           polite_tokenizer [[1%Z]] [[1%Z]] [] [1%Z] 0%Z
           {| module := echo_model |} w0 (tick w0) (tick w0) (tick w0));
    reflexivity.
Defined.

(** In the accelerate branch, when every call succeeds, [forward] returns
    the part of the first generated text behind its last colon, the whole
    text when it has no colon: the replacement of the transcript changes
    nothing there.  It prints that reply and then the time the pipeline
    took. *)
Theorem forward_accelerate_returns :
  forall (lib : Lib) (self : BloomChatMiner)
         (messages : list (gmap string string))
         (history generated_text : string) (p : Pipeline) (tok : Tokenizer)
         (sequence : gmap string string)
         (others : list (gmap string string)) (w w2 : world),
    _process_history messages = Ok history ->
    deployment_framework (config self) <> "deepspeed" ->
    attrs self !! "pipe" = Some (VPipeline p) ->
    attrs self !! "tokenizer" = Some (VTokenizer tok) ->
    call p history (forward_pipe_kwargs tok) (tick w)
    = (Ok (sequence :: others), w2) ->
    sequence !! "generated_text" = Some generated_text ->
    exists resp : string,
      forward lib self messages w = (Ok resp, after_prints w w2 resp) /\
      ~ has_char colon resp /\
      (generated_text = resp \/
       exists pre, generated_text = pre +:+ String colon resp).
Proof.
  intros lib self messages history text p tok sequence others w w2
         Hh Hd Hpipe Htok Hcall Htext.
  destruct (getitem_last_split colon text) as (seg & Hseg & Hno).
  exists seg. split; [|split; [exact Hno|]].
  - apply String.eqb_neq in Hd. unfold forward. rewrite Hh, Hd.
    unfold mbind, M_bind, bindM, lift, getattr, getitem. simpl.
    rewrite Hpipe, Htok. simpl. unfold tick, forward_pipe_kwargs in Hcall.
    simpl in Hcall. rewrite Hcall. simpl. rewrite Htext, Hseg.
    rewrite (replace_segment history seg messages Hh Hno).
    unfold after_prints, mret, M_ret, ret. simpl.
    now rewrite <- List.app_assoc.
  - now apply getitem_last_split_suffix.
Qed.

Lemma forward_accelerate_returns_witness :
  exists resp : string,
    forward demo_lib chat_miner [hello] w0
    = (Ok resp, after_prints w0 (tick w0) resp) /\
    ~ has_char colon resp.
Proof.
  assert (Hd : deployment_framework (config chat_miner) <> "deepspeed")
    by discriminate.
  destruct (forward_accelerate_returns demo_lib chat_miner [hello]
              ("<human>: hello" +:+ nl)
              ("<human>: hello" +:+ nl +:+ "<bot>: hi") chat_pipeline
              polite_tokenizer
              (<["generated_text" :=
                   "<human>: hello" +:+ nl +:+ "<bot>: hi"]> ∅) []
              w0 (tick w0) eq_refl Hd eq_refl eq_refl eq_refl eq_refl)
    as (resp & Hfwd & Hno & _).
  exists resp. split; assumption.
Defined.

(** *** Empty answers *)

(** A model that generates no sequence, a pipeline that returns no
    sequence, and a first sequence without the key [generated_text] make
    [forward] raise [IndexError], [IndexError] and [KeyError]; the world is
    the one the call left, so nothing is printed. *)
Theorem forward_empty_answer :
  forall (lib : Lib) (self : BloomChatMiner)
         (messages : list (gmap string string)) (history : string)
         (tok : Tokenizer) (w : world),
    _process_history messages = Ok history ->
    attrs self !! "tokenizer" = Some (VTokenizer tok) ->
    (forall encoded inputs rank engine w2 w3 w4,
        deployment_framework (config self) = "deepspeed" ->
        encode tok history (tick w) = (Ok encoded, w2) ->
        attrs self !! "local_rank" = Some (VInt rank) ->
        tensor_to lib encoded rank w2 = (Ok inputs, w3) ->
        attrs self !! "ds_engine" = Some (VEngine engine) ->
        generate (module engine) inputs 60 w3 = (Ok [], w4) ->
        forward lib self messages w = (Except IndexError, w4)) /\
    (forall p w2,
        deployment_framework (config self) <> "deepspeed" ->
        attrs self !! "pipe" = Some (VPipeline p) ->
        call p history (forward_pipe_kwargs tok) (tick w) = (Ok [], w2) ->
        forward lib self messages w = (Except IndexError, w2)) /\
    (forall p sequence others w2,
        deployment_framework (config self) <> "deepspeed" ->
        attrs self !! "pipe" = Some (VPipeline p) ->
        call p history (forward_pipe_kwargs tok) (tick w)
        = (Ok (sequence :: others), w2) ->
        sequence !! "generated_text" = None ->
        forward lib self messages w
        = (Except (KeyError "generated_text"), w2)).
Proof.
  intros lib self messages history tok w Hh Htok. split; [|split].
  - intros encoded inputs rank engine w2 w3 w4 Hd Henc Hrank Hto Heng Hgen.
    unfold forward. rewrite Hh, Hd. simpl.
    unfold mbind, M_bind, bindM, lift, getattr. simpl.
    rewrite Htok. simpl. unfold tick in Henc. simpl in Henc.
    rewrite Henc, Hrank. simpl. rewrite Hto, Heng. simpl. now rewrite Hgen.
  - intros p w2 Hd Hpipe Hcall. apply String.eqb_neq in Hd.
    unfold forward. rewrite Hh, Hd.
    unfold mbind, M_bind, bindM, lift, getattr. simpl.
    rewrite Hpipe, Htok. simpl. unfold tick, forward_pipe_kwargs in Hcall.
    simpl in Hcall. now rewrite Hcall.
  - intros p sequence others w2 Hd Hpipe Hcall Hnone.
    apply String.eqb_neq in Hd. unfold forward. rewrite Hh, Hd.
    unfold mbind, M_bind, bindM, lift, getattr, getitem. simpl.
    rewrite Hpipe, Htok. simpl. unfold tick, forward_pipe_kwargs in Hcall.
    simpl in Hcall. rewrite Hcall. simpl. now rewrite Hnone.
Qed.

Lemma forward_empty_answer_witness :
  forward demo_lib silent_deepspeed_miner [hello] w0
  = (Except IndexError, tick w0) /\
  forward demo_lib silent_accelerate_miner [hello] w0
  = (Except IndexError, tick w0).
Proof.
  split.
  - destruct (forward_empty_answer demo_lib silent_deepspeed_miner [hello]
                ("<human>: hello" +:+ nl) polite_tokenizer w0
                eq_refl eq_refl) as (Hds & _ & _).
    apply (Hds [[1%Z]] [[1%Z]] 0%Z {| module := silent_model |}
               (tick w0) (tick w0)); reflexivity.
  - destruct (forward_empty_answer demo_lib silent_accelerate_miner [hello]
                ("<human>: hello" +:+ nl) polite_tokenizer w0
                eq_refl eq_refl) as (_ & Hacc & _).
    apply (Hacc {| call := fun _ _ => mret [] |}); try reflexivity.
    discriminate.
Defined.

(** *** Stripping only deletes *)

(** In the deepspeed branch the reply is the decoding of the first
    generated sequence with characters left out, never with one added or
    changed; when the transcript is empty or does not occur in that
    decoded text, the reply is the decoded text. *)
Theorem forward_deepspeed_reply_subseq :
  forall (lib : Lib) (self : BloomChatMiner)
         (messages : list (gmap string string)) (history decoded : string)
         (tok : Tokenizer) (encoded inputs others : list (list Z))
         (output : list Z) (rank : Z) (engine : DeepSpeedEngine)
         (w w2 w3 w4 w5 : world),
    _process_history messages = Ok history ->
    deployment_framework (config self) = "deepspeed" ->
    attrs self !! "tokenizer" = Some (VTokenizer tok) ->
    encode tok history (tick w) = (Ok encoded, w2) ->
    attrs self !! "local_rank" = Some (VInt rank) ->
    tensor_to lib encoded rank w2 = (Ok inputs, w3) ->
    attrs self !! "ds_engine" = Some (VEngine engine) ->
    generate (module engine) inputs 60 w3 = (Ok (output :: others), w4) ->
    decode tok output w4 = (Ok decoded, w5) ->
    exists resp : string,
      forward lib self messages w = (Ok resp, after_prints w w5 resp) /\
      subseq resp decoded /\
      (history = "" \/ ~ occurs history decoded -> resp = decoded).
Proof.
  intros lib self messages history decoded tok encoded inputs others output
         rank engine w w2 w3 w4 w5 Hh Hd Htok Henc Hrank Hto Heng Hgen Hdec.
  exists (replace decoded history "").
  split; [|split].
  - exact (forward_deepspeed_run lib self messages history decoded tok encoded
             inputs others output rank engine w w2 w3 w4 w5
             Hh Hd Htok Henc Hrank Hto Heng Hgen Hdec).
  - apply replace_subseq.
  - intros [-> | Hno].
    + apply interleave_empty.
    + destruct (String.eqb_spec history "") as [->|Hne].
      * apply interleave_empty.
      * now apply replace_absent.
Qed.

Lemma forward_deepspeed_reply_subseq_witness :
  exists resp : string,
    forward demo_lib polite_miner [hello] w0
    = (Ok resp, after_prints w0 (tick w0) resp) /\
    subseq resp ("<human>: hello" +:+ nl +:+ "<bot>: hi").
Proof.
  destruct (forward_deepspeed_reply_subseq demo_lib polite_miner [hello]
              ("<human>: hello" +:+ nl)
              ("<human>: hello" +:+ nl +:+ "<bot>: hi")
              polite_tokenizer [[1%Z]] [[1%Z]] [] [1%Z] 0%Z
              {| module := echo_model |} w0 (tick w0) (tick w0) (tick w0)
              (tick w0) eq_refl eq_refl eq_refl eq_refl eq_refl eq_refl
              eq_refl eq_refl eq_refl)
    as (resp & Hfwd & Hsub & _).
  exists resp. split; assumption.
Defined.

(** However often the model repeats the prompt before it goes on, the
    deepspeed branch removes every copy: for a decoded text of [n] copies
    of the non-empty transcript followed by a continuation in which the
    transcript does not occur, [forward] returns the continuation. *)
Theorem forward_deepspeed_strips_copies :
  forall (lib : Lib) (self : BloomChatMiner)
         (messages : list (gmap string string)) (history rest : string)
         (n : nat) (tok : Tokenizer) (encoded inputs others : list (list Z))
         (output : list Z) (rank : Z) (engine : DeepSpeedEngine)
         (w w2 w3 w4 w5 : world),
    _process_history messages = Ok history ->
    history <> "" ->
    ~ occurs history rest ->
    deployment_framework (config self) = "deepspeed" ->
    attrs self !! "tokenizer" = Some (VTokenizer tok) ->
    encode tok history (tick w) = (Ok encoded, w2) ->
    attrs self !! "local_rank" = Some (VInt rank) ->
    tensor_to lib encoded rank w2 = (Ok inputs, w3) ->
    attrs self !! "ds_engine" = Some (VEngine engine) ->
    generate (module engine) inputs 60 w3 = (Ok (output :: others), w4) ->
    decode tok output w4 = (Ok (copies n history +:+ rest), w5) ->
    forward lib self messages w = (Ok rest, after_prints w w5 rest).
Proof.
  intros lib self messages history rest n tok encoded inputs others output
         rank engine w w2 w3 w4 w5 Hh Hne Hno Hd Htok Henc Hrank Hto Heng
         Hgen Hdec.
  rewrite (forward_deepspeed_run lib self messages history _ tok encoded
             inputs others output rank engine w w2 w3 w4 w5
             Hh Hd Htok Henc Hrank Hto Heng Hgen Hdec).
  now rewrite (replace_copies n history rest Hne),
              (replace_absent rest history "" Hne Hno).
Qed.

Lemma forward_deepspeed_strips_copies_witness :
  forward demo_lib polite_miner [hello] w0
  = (Ok "<bot>: hi", after_prints w0 (tick w0) "<bot>: hi").
Proof.
  apply (forward_deepspeed_strips_copies demo_lib polite_miner [hello]
           ("<human>: hello" +:+ nl) "<bot>: hi" 1
           polite_tokenizer [[1%Z]] [[1%Z]] [] [1%Z] 0%Z
           {| module := echo_model |} w0 (tick w0) (tick w0) (tick w0));
    try reflexivity.
  - discriminate.
  - exact transcript_not_in_reply.
Defined.

(** *** [__init__] *)

Ltac inv_bind H :=
  apply bindM_inv in H; destruct H as (? & ? & ? & H).

Lemma as_int_inv (v : pyval) (n : Z) (w w1 : world) :
  as_int v w = (Ok n, w1) -> v = VInt n /\ w1 = w.
Proof. destruct v; try discriminate. now intros [= -> ->]. Qed.

Lemma as_str_inv (v : pyval) (s : string) (w w1 : world) :
  as_str v w = (Ok s, w1) -> v = VStr s /\ w1 = w.
Proof. destruct v; try discriminate. now intros [= -> ->]. Qed.

(** What a successful [__init__] did, in each branch. *)
Lemma init_inv (lib : Lib) (super_init : M BloomChatMiner)
      (self' : BloomChatMiner) (w w' : world) :
  __init__ lib super_init w = (Ok self', w') ->
  exists (self : BloomChatMiner) (w1 : world) (tok : Tokenizer) (w2 : world),
    super_init w = (Ok self, w1) /\
    AutoTokenizer_from_pretrained lib (bloom_model_name (config self)) w1
    = (Ok tok, w2) /\
    config self' = config self /\
    ((deployment_framework (config self) = "deepspeed" /\
      exists (rank : Z) (model : CausalLM) (engine : DeepSpeedEngine),
        int lib (rank_string w2) = Ok rank /\
        attrs self'
        = <["ds_engine" := VEngine engine]>
            (<["model" := VCausalLM model]>
               (<["local_rank" := VInt rank]> (attrs self)))) \/
     (deployment_framework (config self) <> "deepspeed" /\
      exists (name : string) (model : CausalLM) (tokv : pyval)
             (pipe : Pipeline),
        attrs self !! "model_name" = Some (VStr name) /\
        attrs self !! "tokenizer" = Some tokv /\
        attrs self'
        = <["pipe" := VPipeline pipe]>
            (<["model" := VCausalLM model]> (attrs self)))).
Proof.
  intros H. unfold __init__ in H.
  apply bindM_inv in H as (self & w1 & Hsuper & H).
  apply bindM_inv in H as (tok & w2 & Htok & H).
  exists self, w1, tok, w2. split; [exact Hsuper|]. split; [exact Htok|].
  destruct (String.eqb_spec (deployment_framework (config self)) "deepspeed")
    as [Hd|Hd].
  - apply bindM_inv in H as ([] & w3 & Henv & H).
    apply bindM_inv in H as (rs & w4 & Hrs & H).
    apply bindM_inv in H as (rank & w5 & Hrank & H).
    apply lift_inv in Hrank as [Hrank ->].
    unfold os_environ_set in Henv. injection Henv as <-.
    unfold os_getenv in Hrs. simpl in Hrs. injection Hrs as <- <-.
    rewrite lookup_insert_ne in Hrank by discriminate.
    do 5 inv_bind H.
    apply bindM_inv in H as (model & w6 & Hmodel & H).
    do 3 inv_bind H.
    apply bindM_inv in H as (engine & w7 & Hengine & H).
    do 2 inv_bind H.
    injection H as <- <-. split; [reflexivity|]. left. split; [exact Hd|].
    exists rank, model, engine. split; [exact Hrank | reflexivity].
  - apply bindM_inv in H as (name & w3 & Hname & H).
    apply bindM_inv in Hname as (v & w3' & Hv & Hname).
    apply getattr_inv in Hv as [Hv ->].
    apply as_str_inv in Hname as [-> ->].
    apply bindM_inv in H as (model & w4 & Hmodel & H).
    inv_bind H.
    apply bindM_inv in H as (tokv & w5 & Htokv & H).
    apply getattr_inv in Htokv as [Htokv ->].
    unfold setattr in Htokv. simpl in Htokv.
    rewrite lookup_insert_ne in Htokv by discriminate.
    apply bindM_inv in H as (pipe & w6 & Hpipe & H).
    injection H as <- <-. split; [reflexivity|]. right. split; [exact Hd|].
    exists name, model, tokv, pipe. auto.
Qed.

(** [__init__] never assigns [self.tokenizer]: the tokenizer it loads
    stays in a local variable.  So when the base class leaves no attribute
    [tokenizer], a miner that [__init__] returns is a deepspeed one, and
    [forward] on it raises the attribute error on [tokenizer] for every
    well-formed message list, right after the clock is read and before
    the model is called. *)
Theorem forward_after_init_raises :
  forall (lib : Lib) (super_init : M BloomChatMiner) (self' : BloomChatMiner)
         (w w' : world),
    (forall self w1, super_init w = (Ok self, w1) ->
                     attrs self !! "tokenizer" = None) ->
    __init__ lib super_init w = (Ok self', w') ->
    deployment_framework (config self') = "deepspeed" /\
    attrs self' !! "tokenizer" = None /\
    forall (messages : list (gmap string string)) (history : string)
           (wf : world),
      _process_history messages = Ok history ->
      forward lib self' messages wf
      = (Except (AttributeError "tokenizer"), tick wf).
Proof.
  intros lib super_init self' w w' Hbase Hinit.
  destruct (init_inv lib super_init self' w w' Hinit)
    as (self & w1 & tok & w2 & Hsuper & _ & Hcfg & Hbranch).
  pose proof (Hbase self w1 Hsuper) as Hnone.
  destruct Hbranch as [(Hd & rank & model & engine & _ & Hattrs)
                      | (_ & name & model & tokv & pipe & _ & Htok & _)];
    [|congruence].
  assert (Hnone' : attrs self' !! "tokenizer" = None).
  { rewrite Hattrs. now rewrite !lookup_insert_ne by discriminate. }
  rewrite Hcfg. split; [exact Hd|]. split; [exact Hnone'|].
  intros messages history wf Hh. unfold forward. rewrite Hh, Hcfg, Hd.
  unfold mbind, M_bind, bindM, lift, getattr. simpl. now rewrite Hnone'.
Qed.

Lemma forward_after_init_raises_witness :
  exists (self : BloomChatMiner) (w' : world),
    __init__ demo_lib (mret (bare_miner deepspeed_config)) w0 = (Ok self, w') /\
    forward demo_lib self [hello] w0
    = (Except (AttributeError "tokenizer"), tick w0).
Proof.
  destruct init_deepspeed_demo as (self & w' & Hinit & _ & _).
  exists self, w'. split; [exact Hinit|].
  assert (Hbase : forall s w1,
             (mret (bare_miner deepspeed_config) : M BloomChatMiner) w0
             = (Ok s, w1) -> attrs s !! "tokenizer" = None).
  { intros s w1 [= <- <-]. reflexivity. }
  destruct (forward_after_init_raises demo_lib _ self w0 w' Hbase Hinit)
    as (_ & _ & Hfwd).
  apply (Hfwd [hello] ("<human>: hello" +:+ nl)). reflexivity.
Defined.

(** The attributes a miner has after [__init__] are those the base class
    left and, in the deepspeed branch, [local_rank], [model] and
    [ds_engine], the local rank being [int] of the environment variable
    [LOCAL_RANK], of ["0"] when it is not set; in the other branch,
    [model] and [pipe], and the base class must have left [model_name] and
    [tokenizer].  The configuration is the one of the base class. *)
Theorem init_assigns :
  forall (lib : Lib) (super_init : M BloomChatMiner) (self' : BloomChatMiner)
         (w w' : world),
    __init__ lib super_init w = (Ok self', w') ->
    exists (self : BloomChatMiner) (w1 : world) (tok : Tokenizer) (w2 : world),
      super_init w = (Ok self, w1) /\
      AutoTokenizer_from_pretrained lib (bloom_model_name (config self)) w1
      = (Ok tok, w2) /\
      config self' = config self /\
      ((deployment_framework (config self) = "deepspeed" /\
        exists (rank : Z) (model : CausalLM) (engine : DeepSpeedEngine),
          int lib (rank_string w2) = Ok rank /\
          attrs self'
          = <["ds_engine" := VEngine engine]>
              (<["model" := VCausalLM model]>
                 (<["local_rank" := VInt rank]> (attrs self)))) \/
       (deployment_framework (config self) <> "deepspeed" /\
        exists (name : string) (model : CausalLM) (tokv : pyval)
               (pipe : Pipeline),
          attrs self !! "model_name" = Some (VStr name) /\
          attrs self !! "tokenizer" = Some tokv /\
          attrs self'
          = <["pipe" := VPipeline pipe]>
              (<["model" := VCausalLM model]> (attrs self)))).
Proof. exact init_inv. Qed.

Lemma init_assigns_witness :
  exists (self' : BloomChatMiner) (w' : world),
    __init__ demo_lib (mret (bare_miner deepspeed_config)) w0 = (Ok self', w') /\
    config self' = deepspeed_config /\
    attrs self' !! "local_rank" = Some (VInt 0).
Proof.
  destruct init_deepspeed_demo as (self' & w' & Hinit & _ & _).
  exists self', w'. split; [exact Hinit|].
  destruct (init_assigns demo_lib _ self' w0 w' Hinit)
    as (self & w1 & tok & w2 & Hsuper & _ & Hcfg & Hbranch).
  injection Hsuper as <- <-. split; [exact Hcfg|].
  destruct Hbranch as [(_ & rank & model & engine & Hrank & ->)
                      | (Hd & _)]; [|now destruct Hd].
  injection Hrank as <-.
  now rewrite !lookup_insert_ne, lookup_insert_eq by discriminate.
Defined.

(** Loading failures are not caught: when the tokenizer cannot be loaded
    [__init__] raises in either branch; in the deepspeed branch it raises
    when [LOCAL_RANK] is no integer, before any device is touched, and
    when the model cannot be loaded. *)
Theorem init_failures_propagate :
  forall (lib : Lib) (super_init : M BloomChatMiner) (self : BloomChatMiner)
         (e : pyexn) (w w1 : world),
    super_init w = (Ok self, w1) ->
    (forall w2,
        AutoTokenizer_from_pretrained lib (bloom_model_name (config self)) w1
        = (Except e, w2) ->
        __init__ lib super_init w = (Except e, w2)) /\
    (forall tok w2,
        deployment_framework (config self) = "deepspeed" ->
        AutoTokenizer_from_pretrained lib (bloom_model_name (config self)) w1
        = (Ok tok, w2) ->
        int lib (rank_string w2) = Except e ->
        __init__ lib super_init w
        = (Except e, (os_environ_set "TOKENIZERS_PARALLELISM" "false" w2).2)) /\
    (forall tok rank size w2 w3 w4 w5,
        deployment_framework (config self) = "deepspeed" ->
        AutoTokenizer_from_pretrained lib (bloom_model_name (config self)) w1
        = (Ok tok, w2) ->
        int lib (rank_string w2) = Ok rank ->
        int lib (match environ w2 !! "WORLD_SIZE" with
                 | Some v => v
                 | None => "1"
                 end) = Ok size ->
        torch_cuda_set_device lib rank
          (os_environ_set "TOKENIZERS_PARALLELISM" "false" w2).2 = (Ok tt, w3) ->
        deepspeed_init_distributed lib w3 = (Ok tt, w4) ->
        AutoModelForCausalLM_from_pretrained lib
          (bloom_model_name (config self))
          {| device_map := None; load_in_8bit := false |} w4
        = (Except e, w5) ->
        __init__ lib super_init w = (Except e, w5)).
Proof.
  intros lib super_init self e w w1 Hsuper.
  unfold __init__. rewrite (bindM_Ok _ _ _ _ _ Hsuper).
  split; [|split].
  - intros w2 Htok. now apply bindM_Except.
  - intros tok w2 Hd Htok Hrank. rewrite (bindM_Ok _ _ _ _ _ Htok), Hd.
    unfold mbind, M_bind, bindM, lift, os_environ_set, os_getenv,
      rank_string in *.
    simpl. rewrite lookup_insert_ne by discriminate. now rewrite Hrank.
  - intros tok rank size w2 w3 w4 w5 Hd Htok Hrank Hsize Hdev Hdist Hmodel.
    rewrite (bindM_Ok _ _ _ _ _ Htok), Hd.
    unfold mbind, M_bind, bindM, lift, os_environ_set, os_getenv,
      rank_string, getattr, setattr in *.
    simpl in *. rewrite !lookup_insert_ne by discriminate.
    rewrite Hrank, Hsize. rewrite lookup_insert_eq. simpl.
    rewrite Hdev, Hdist. now rewrite Hmodel.
Qed.

Lemma init_failures_propagate_witness :
  __init__ offline_lib (mret (bare_miner deepspeed_config)) w0
  = (Except (OSError "Can't load the model"),
     (os_environ_set "TOKENIZERS_PARALLELISM" "false" w0).2).
Proof.
  destruct (init_failures_propagate offline_lib
              (mret (bare_miner deepspeed_config))
              (bare_miner deepspeed_config)
              (OSError "Can't load the model") w0 w0 eq_refl)
    as (_ & _ & Hmodel).
  eapply (Hmodel _ 0%Z 0%Z w0); reflexivity.
Defined.

End BloomMore.
